(** * pyRio: the event index of [stat_file_parser.py]

    A shallow embedding of [EventObj], of the index build in
    [EventSearch.__init__] and of the query methods of [EventSearch], with
    the properties of the build and of the queries proved over it.

    Python objects are modelled as follows.
    - An exception is a value of [exn]; a call that may raise returns an
      [outcome], and statements are sequenced with the bind of [outcome].
    - A [dict] whose values are sets of event ids is a [gmap] to [gset nat];
      subscripting a missing key raises [KeyError].
    - The decoded stat file is typed: every mandatory field of an event is
      present with the type the decoder gives it.  An optional sub-record
      (runner, pitch, contact, first fielder) is an [option]: the code reads
      a missing key and an empty JSON object alike as "absent" (it tests the
      truth value of [dict.get(key, {})]), and both are [None] here.
    - A float is taken with its exact rational value; the two dicts keyed
      by a banded position are keyed by the number of hundredths.
    - Printing (under [debug_mode], and the stray print of the runner
      query) is not modelled. *)

From stdpp Require Import gmap strings list pretty functions.
From Stdlib Require Import ZArith QArith Qround.

Local Open Scope Z_scope.

(** ** Exceptions and results *)

(** A key used to subscript a dict: the code uses both ints and strs. *)
Inductive pykey :=
  | KInt (z : Z)
  | KStr (s : string).

Inductive exn :=
  | ValueError (msg : string)
  | KeyError (k : pykey)
  | TypeError (msg : string)
  | AttributeError (attr : string)
  | IndexError (msg : string)
  | Exception (msg : string).

Inductive outcome (A : Type) :=
  | Ok (a : A)
  | Raise (e : exn).

Arguments Ok {A} a.
Arguments Raise {A} e.

#[global] Instance outcome_ret : MRet outcome := @Ok.

#[global] Instance outcome_bind : MBind outcome :=
  λ A B f m, match m with Ok a => f a | Raise e => Raise e end.

Definition is_Ok {A} (r : outcome A) : Prop := ∃ a, r = Ok a.

(** The call returned. *)
Definition succeeds {A} (r : outcome A) : bool :=
  match r with Ok _ => true | Raise _ => false end.

Definition raises_ValueError {A} (r : outcome A) : Prop := ∃ msg, r = Raise (ValueError msg).

(** [for x in xs: body], the body updating an accumulator and possibly raising. *)
Fixpoint for_each {A S} (xs : list A) (body : A → S → outcome S) (s : S) : outcome S :=
  match xs with
  | [] => Ok s
  | x :: xs' => s' ← body x s; for_each xs' body s'
  end.

(** The truth value of [d.get(key)] or [d.get(key, {})] for a sub-record. *)
Definition truthy {A} (o : option A) : bool :=
  match o with Some _ => true | None => false end.

(** [range(a, b)]. *)
Definition range (a b : Z) : list Z := seqZ a (b - a).

(** ** Dicts of event-id sets *)

(** [{k: set() for k in keys}]. *)
Definition dict_from_keys `{Countable K} (keys : list K) : gmap K (gset nat) :=
  list_to_map ((λ k, (k, ∅)) <$> keys).

(** [d[k]] on a dict with int keys; a str never equals an int key. *)
Definition getitem_int {V} (d : gmap Z V) (k : pykey) : outcome V :=
  match k with
  | KInt z => match d !! z with Some v => Ok v | None => Raise (KeyError k) end
  | KStr _ => Raise (KeyError k)
  end.

(** [d[k]] on a dict with str keys. *)
Definition getitem_str {V} (d : gmap string V) (k : string) : outcome V :=
  match d !! k with Some v => Ok v | None => Raise (KeyError (KStr k)) end.

(** [max(d)]: the largest key; [ValueError] on an empty dict. *)
Definition dict_max {V} (d : gmap Z V) : outcome Z :=
  match elements (dom d) with
  | [] => Raise (ValueError "max() arg is an empty sequence")
  | k :: ks => Ok (foldr Z.max k ks)
  end.

(** [round(x, 2)] on a float, as the number of hundredths: floats are taken
    with their exact rational value, ties go to the even neighbour. *)
Definition round_half_even (q : Q) : Z :=
  let f := Qfloor q in
  match Qcompare (q - inject_Z f) (1 # 2) with
  | Lt => f
  | Gt => f + 1
  | Eq => if Z.even f then f else f + 1
  end.

Definition round2 (x : Q) : Z := round_half_even (x * 100).

(** ** lookup.py: the canonical value domains ([LookupDicts.X.values()]) *)

Module LookupDicts.

Definition CONTACT_TYPE : list string :=
  ["Miss"; "Sour - Left"; "Nice - Left"; "Perfect"; "Nice - Right"; "Sour - Right"].

Definition INPUT_DIRECTION : list string :=
  [""; "Left"; "Right"; "Left+Right"; "Down"; "Left+Down"; "Right+Down";
   "Left+Right+Down"; "Up"; "Left+Up"; "Right+Up"; "Left+Right+Up";
   "Left+Down+Up"; "Right+Down+Up"; "Left+Right+Down+Up"].

Definition PITCH_TYPE : list string := ["Curve"; "Charge"; "ChangeUp"].

Definition CHARGE_TYPE : list string := ["N/A"; "Slider"; "Perfect"].

Definition TYPE_OF_SWING : list string := ["None"; "Slap"; "Charge"; "Star"; "Bunt"].

Definition POSITION : list string :=
  ["P"; "C"; "1B"; "2B"; "3B"; "SS"; "LF"; "CF"; "RF"; "Inv"; "None"].

Definition FINAL_RESULT : list string :=
  ["None"; "Strikeout"; "Walk (BB)"; "Walk (HBP)"; "Out"; "Caught";
   "Caught line-drive"; "Single"; "Double"; "Triple"; "HR"; "Error - Input";
   "Error - Chem"; "Bunt"; "SacFly"; "Ground ball double Play"; "Foul catch"].

End LookupDicts.

(** ** The decoded stat file *)

Record FirstFielder := {
  Fielder_Position : string;
  Fielder_Character : string;
  Fielder_Action : string;
  Fielder_Bobble : string;
  Fielder_Manual_Selected : string;
}.

(** ['Frame of Swing Upon Contact'] is held as the int that [safe_int]
    returns for it. *)
Record Contact := {
  Type_of_Contact : string;
  Input_Direction_Stick : string;
  Frame_of_Swing_Upon_Contact : Z;
  Star_Swing_Five_Star : Z;
  Ball_Contact_Pos_X : Q;
  First_Fielder : option FirstFielder;
}.

Record Pitch := {
  Pitch_Type : string;
  Charge_Type : string;
  Star_Pitch : Z;
  Ball_Position_Strikezone : Q;
  In_Strikezone : Z;
  Type_of_Swing : string;
  Contact_ : option Contact;
}.

Record Runner := {
  Steal : string;
}.

Record Event := {
  Inning : Z;
  Half_Inning : Z;
  Away_Score : Z;
  Home_Score : Z;
  Balls : Z;
  Strikes : Z;
  Outs : Z;
  Star_Chance : Z;
  Pitcher_Stamina : Z;
  Chemistry_Links_on_Base : Z;
  Pitcher_Roster_Loc : Z;
  Batter_Roster_Loc : Z;
  RBI : Z;
  Num_Outs_During_Play : Z;
  Result_of_AB : string;
  Runner_1B : option Runner;
  Runner_2B : option Runner;
  Runner_3B : option Runner;
  Pitch_ : option Pitch;
}.

(** One entry of ["Character Game Stats"]; only [CharID] is read by the index. *)
Record CharacterStats := {
  CharID : string;
}.

(** ** ErrorChecker *)

Module ErrorChecker.

Definition check_team_num (teamNum : Z) : outcome unit :=
  if bool_decide (teamNum ≠ 0) && bool_decide (teamNum ≠ 1)
  then Raise (Exception ("Invalid team arg " +:+ pretty teamNum +:+
                ". Function only accepts team args of 0 (away team) or 1 (home team)."))
  else Ok ().

Definition check_roster_num (rosterNum : Z) : outcome unit :=
  if bool_decide (rosterNum < -1) || bool_decide (rosterNum > 8)
  then Raise (ValueError ("Invalid roster arg " +:+ pretty rosterNum +:+
                ". Function only accepts roster args of 0 to 8."))
  else Ok ().

Definition check_base_num (baseNum : Z) : outcome unit :=
  if bool_decide (baseNum < -1) || bool_decide (baseNum > 3)
  then Raise (ValueError ("Invalid base arg " +:+ pretty baseNum +:+
                ". Function only accepts base args of -1 to 3"))
  else Ok ().

End ErrorChecker.

(** ** The [rioStat] object

    [EventSearch] and [EventObj] reach the game only through the methods of
    the [rioStat] object they are given; Python does not enforce the
    [StatObj] annotation, so the object is modelled by the methods used. *)
Module RioStat.

Record obj := {
  inningsPlayed : Z;
  score : Z → outcome Z;
  characterGameStats : list (string * CharacterStats);
  events : list Event;
  characterName : Z → Z → outcome string;
}.

End RioStat.

(** ** lookup.py: [Lookup.get_character] as stat_file_parser.py calls it *)

Module Lookup.

(** [def get_character(self, search_term, output_format="name")] is an
    instance method, and the parser calls it on the class:
    [Lookup.get_character(char_id, output_format=output_format)].  The one
    positional argument binds [self], [search_term] stays unbound, and
    Python raises before the body runs. *)
Definition get_character_on_class (char_id output_format : string) : outcome string :=
  Raise (TypeError "Lookup.get_character() missing 1 required positional argument: 'search_term'").

End Lookup.

(** ** StatObj *)

Module StatObj.

Record statJson := {
  Version : option string;
  Away_Score : Z;
  Home_Score : Z;
  Innings_Played : Z;
  Character_Game_Stats : list (string * CharacterStats);
  Events : list Event;
}.

Definition version (self : statJson) : string := default "Pre 0.1.7" (Version self).

Definition VERSION_LIST_HOME_AWAY_FLIPPED : list string :=
  ["Pre 0.1.7"; "0.1.7a"; "0.1.8"; "0.1.9"; "1.9.1"].

Definition VERSION_LIST_OLD_TEAM_STRUCTURE : list string :=
  ["Pre 0.1.7"; "0.1.7a"; "0.1.8"; "0.1.9"; "1.9.1"; "1.9.2"; "1.9.3"; "1.9.4"].

Definition teamNumVersionCorrection (self : statJson) (teamNum : Z) : outcome Z :=
  _ ← ErrorChecker.check_team_num teamNum;
  if bool_decide (version self ∈ VERSION_LIST_HOME_AWAY_FLIPPED)
  then Ok (Z.abs (teamNum - 1))
  else Ok teamNum.

Definition score (self : statJson) (teamNum : Z) : outcome Z :=
  teamNum ← teamNumVersionCorrection self teamNum;
  if teamNum =? 0 then Ok (Away_Score self) else Ok (Home_Score self).

Definition inningsPlayed (self : statJson) : Z := Innings_Played self.

Definition characterGameStats (self : statJson) : list (string * CharacterStats) :=
  Character_Game_Stats self.

Definition getTeamString (self : statJson) (teamNum rosterNum : Z) : outcome string :=
  _ ← ErrorChecker.check_team_num teamNum;
  _ ← ErrorChecker.check_roster_num rosterNum;
  if bool_decide (version self ∈ VERSION_LIST_OLD_TEAM_STRUCTURE)
  then Ok ("Team " +:+ pretty teamNum +:+ " Roster " +:+ pretty rosterNum)
  else
    let teamStr := if teamNum =? 0 then "Away" else "Home" in
    Ok (teamStr +:+ " Roster " +:+ pretty rosterNum).

(** [self.statJson["Character Game Stats"][key]["CharID"]]. *)
Definition roster_CharID (self : statJson) (key : string) : outcome string :=
  match list_find (λ kv, kv.1 = key) (Character_Game_Stats self) with
  | Some (_, (_, c)) => Ok (CharID c)
  | None => Raise (KeyError (KStr key))
  end.

(** [characterName(teamNum, rosterNum, output_format="name")].  With
    [rosterNum == -1] the loop over the nine roster spots raises in its
    first iteration, so only that iteration is written out. *)
Definition characterName (self : statJson) (teamNum rosterNum : Z) : outcome string :=
  _ ← ErrorChecker.check_team_num teamNum;
  _ ← ErrorChecker.check_roster_num rosterNum;
  key ← getTeamString self teamNum (if rosterNum =? -1 then 0 else rosterNum);
  char_id ← roster_CharID self key;
  Lookup.get_character_on_class char_id "name".

Definition events (self : statJson) : list Event := Events self.

(** A [StatObj] seen through the methods the index uses. *)
Definition as_rioStat (self : statJson) : RioStat.obj :=
  {| RioStat.inningsPlayed := inningsPlayed self;
     RioStat.score := score self;
     RioStat.characterGameStats := characterGameStats self;
     RioStat.events := events self;
     RioStat.characterName := characterName self |}.

End StatObj.

(** ** EventObj *)

Module EventObj.

Record obj := {
  rioStat : RioStat.obj;
  eventDict : Event;
}.

(** [EventObj(rioStat, eventNum)]; a negative [eventNum] indexes from the end. *)
Definition __init__ (rioStat : RioStat.obj) (eventNum : Z) : outcome obj :=
  let all_events := RioStat.events rioStat in
  let len := Z.of_nat (length all_events) in
  if bool_decide (Z.abs eventNum > len)
  then Raise (IndexError ("Invalid event num: Event " +:+ pretty eventNum +:+
                " does not exist in game"))
  else
    let i := if bool_decide (eventNum < 0) then len + eventNum else eventNum in
    match all_events !! Z.to_nat i with
    | Some e => Ok {| rioStat := rioStat; eventDict := e |}
    | None => Raise (IndexError "list index out of range")
    end.

Definition inning (self : obj) : Z := Inning (eventDict self).
Definition half_inning (self : obj) : Z := Half_Inning (eventDict self).

Definition score (self : obj) (teamNum : Z) : outcome Z :=
  _ ← ErrorChecker.check_team_num teamNum;
  if teamNum =? 0 then Ok (Away_Score (eventDict self)) else Ok (Home_Score (eventDict self)).

Definition balls (self : obj) : Z := Balls (eventDict self).
Definition strikes (self : obj) : Z := Strikes (eventDict self).
Definition outs (self : obj) : Z := Outs (eventDict self).
Definition star_chance (self : obj) : Z := Star_Chance (eventDict self).
Definition pitcher_stamina (self : obj) : Z := Pitcher_Stamina (eventDict self).
Definition chem_links_on_base (self : obj) : Z := Chemistry_Links_on_Base (eventDict self).
Definition batting_team (self : obj) : Z := half_inning self.
Definition pitching_team (self : obj) : Z := Z.abs (half_inning self - 1).

Definition pitcher (self : obj) : outcome string :=
  RioStat.characterName (rioStat self) (pitching_team self) (Pitcher_Roster_Loc (eventDict self)).

Definition batter (self : obj) : outcome string :=
  RioStat.characterName (rioStat self) (batting_team self) (Batter_Roster_Loc (eventDict self)).

Definition rbi (self : obj) : Z := RBI (eventDict self).
Definition num_outs_during_play (self : obj) : Z := Num_Outs_During_Play (eventDict self).
Definition result_of_AB (self : obj) : string := Result_of_AB (eventDict self).

(** [self.eventDict.get(f'Runner {baseNum}B')]: only bases 1 to 3 are keys. *)
Definition runner_get (self : obj) (baseNum : Z) : option Runner :=
  if baseNum =? 1 then Runner_1B (eventDict self)
  else if baseNum =? 2 then Runner_2B (eventDict self)
  else if baseNum =? 3 then Runner_3B (eventDict self)
  else None.

(** [for i in range(1,4): if f(i) == 1: return 1] followed by [return 0]. *)
Fixpoint any_base (f : Z → outcome Z) (bases : list Z) : outcome Z :=
  match bases with
  | [] => Ok 0
  | i :: bases' => r ← f i; if r =? 1 then Ok 1 else any_base f bases'
  end.

(** The body of [bool_runner_on_base] for one base. *)
Definition bool_runner_on_one_base (self : obj) (baseNum : Z) : outcome Z :=
  _ ← ErrorChecker.check_base_num baseNum;
  Ok (if truthy (runner_get self baseNum) then 1 else 0).

Definition bool_runner_on_base (self : obj) (baseNum : Z) : outcome Z :=
  _ ← ErrorChecker.check_base_num baseNum;
  if baseNum =? -1
  then any_base (bool_runner_on_one_base self) (range 1 4)
  else Ok (if truthy (runner_get self baseNum) then 1 else 0).

(** [runner_dict(baseNum)]: base 0 reads ['Runner Batter'], which the index
    never asks for; [None] stands for the empty dict. *)
Definition runner_dict (self : obj) (baseNum : Z) : outcome (option Runner) :=
  _ ← ErrorChecker.check_base_num baseNum;
  Ok (runner_get self baseNum).

Definition bool_steal_one_base (self : obj) (base_num : Z) : outcome Z :=
  _ ← ErrorChecker.check_base_num base_num;
  runner_data ← runner_dict self base_num;
  Ok (match runner_data with
      | Some r => if bool_decide (Steal r ≠ "None") then 1 else 0
      | None => 0
      end).

Definition bool_steal (self : obj) (base_num : Z) : outcome Z :=
  _ ← ErrorChecker.check_base_num base_num;
  if base_num =? -1
  then any_base (bool_steal_one_base self) (range 1 4)
  else bool_steal_one_base self base_num.

Definition pitch_dict (self : obj) : option Pitch := Pitch_ (eventDict self).
Definition contact_dict (self : obj) : option Contact := pitch_dict self ≫= Contact_.
Definition first_fielder_dict (self : obj) : option FirstFielder :=
  contact_dict self ≫= First_Fielder.

End EventObj.

(** ** EventSearch: the index *)

Module EventSearch.

(** The dicts with str keys. *)
Inductive StrAxis :=
  | _result_of_AB_dict | _first_fielder_position_dict | _pitch_type_dict
  | _charge_type_dict | _swing_type_dict | _contact_type_dict
  | _input_direction_dict.

(** The dicts with int keys; the last two are keyed by a position banded
    at two decimal places, held as a number of hundredths. *)
Inductive IntAxis :=
  | _rbi_dict | _inning_dict | _away_score_dict | _home_score_dict
  | _balls_dict | _strikes_dict | _outs_in_inning_dict | _half_inning_dict
  | _chem_on_base_dict | _runners_on_base_dict | _pitcher_stamina_dict
  | _star_chance_dict | _outs_during_event_dict | _pitch_in_strikezone_dict
  | _contact_frame_dict | _ball_position_strikezone | _x_ball_contact_pos.

(** The plain sets. *)
Inductive Marker :=
  | _steal | _star_pitch | _bobble | _fireball_burn | _five_star_dinger
  | _sliding_catch | _wall_jump | _manual_character_selection
  | _first_pitch_of_AB | _last_pitch_of_AB | _home_team_winning
  | _away_team_winning | _game_tied | _lead_changed.

#[global] Instance StrAxis_eq_dec : EqDecision StrAxis.
Proof. solve_decision. Defined.

#[global] Instance IntAxis_eq_dec : EqDecision IntAxis.
Proof. solve_decision. Defined.

#[global] Instance Marker_eq_dec : EqDecision Marker.
Proof. solve_decision. Defined.

(** One value of [character_action_dict]: the three role sets. *)
Record Actions := {
  AtBat : gset nat;
  Pitching : gset nat;
  Fielding : gset nat;
}.

Inductive Role := RAtBat | RPitching | RFielding.

Definition role_get (r : Role) (a : Actions) : gset nat :=
  match r with RAtBat => AtBat a | RPitching => Pitching a | RFielding => Fielding a end.

Definition role_add (r : Role) (n : nat) (a : Actions) : Actions :=
  match r with
  | RAtBat => {| AtBat := AtBat a ∪ {[n]}; Pitching := Pitching a; Fielding := Fielding a |}
  | RPitching => {| AtBat := AtBat a; Pitching := Pitching a ∪ {[n]}; Fielding := Fielding a |}
  | RFielding => {| AtBat := AtBat a; Pitching := Pitching a; Fielding := Fielding a ∪ {[n]} |}
  end.

(** The instance attributes.  [debug_mode] is [False] throughout
    [__init__]; it only guards prints and is left out. *)
Record obj := {
  rioStat : RioStat.obj;
  str_dict : StrAxis → gmap string (gset nat);
  int_dict : IntAxis → gmap Z (gset nat);
  marker : Marker → gset nat;
  character_action_dict : gmap string Actions;
}.

Definition set_str_dict (self : obj) (f : StrAxis → gmap string (gset nat)) : obj :=
  {| rioStat := rioStat self; str_dict := f; int_dict := int_dict self;
     marker := marker self; character_action_dict := character_action_dict self |}.

Definition set_int_dict (self : obj) (f : IntAxis → gmap Z (gset nat)) : obj :=
  {| rioStat := rioStat self; str_dict := str_dict self; int_dict := f;
     marker := marker self; character_action_dict := character_action_dict self |}.

Definition set_marker (self : obj) (f : Marker → gset nat) : obj :=
  {| rioStat := rioStat self; str_dict := str_dict self; int_dict := int_dict self;
     marker := f; character_action_dict := character_action_dict self |}.

Definition set_character_action_dict (self : obj) (d : gmap string Actions) : obj :=
  {| rioStat := rioStat self; str_dict := str_dict self; int_dict := int_dict self;
     marker := marker self; character_action_dict := d |}.

(** *** The statements of the build *)

(** [self.<axis>[k].add(eventNum)] on an int-keyed dict. *)
Definition add_int (a : IntAxis) (k : Z) (eventNum : nat) (self : obj) : outcome obj :=
  match int_dict self a !! k with
  | Some s => Ok (set_int_dict self (<[a := <[k := s ∪ {[eventNum]}]> (int_dict self a)]> (int_dict self)))
  | None => Raise (KeyError (KInt k))
  end.

(** [if k not in self.<axis>: self.<axis>[k] = set()] then [self.<axis>[k].add(eventNum)]. *)
Definition add_band (a : IntAxis) (k : Z) (eventNum : nat) (self : obj) : outcome obj :=
  let d := match int_dict self a !! k with
           | Some _ => int_dict self a
           | None => <[k := ∅]> (int_dict self a)
           end in
  add_int a k eventNum (set_int_dict self (<[a := d]> (int_dict self))).

(** [self.<axis>[k].add(eventNum)] on a str-keyed dict. *)
Definition add_str (a : StrAxis) (k : string) (eventNum : nat) (self : obj) : outcome obj :=
  match str_dict self a !! k with
  | Some s => Ok (set_str_dict self (<[a := <[k := s ∪ {[eventNum]}]> (str_dict self a)]> (str_dict self)))
  | None => Raise (KeyError (KStr k))
  end.

(** [try: stmt / except KeyError: (print under debug_mode)]. *)
Definition try_except_KeyError (stmt : obj → outcome obj) (self : obj) : outcome obj :=
  match stmt self with
  | Ok self' => Ok self'
  | Raise (KeyError _) => Ok self
  | Raise e => Raise e
  end.

(** [self.<set>.add(eventNum)]. *)
Definition add_marker (m : Marker) (eventNum : nat) (self : obj) : outcome obj :=
  Ok (set_marker self (<[m := marker self m ∪ {[eventNum]}]> (marker self))).

(** [self.character_action_dict[c][role].add(eventNum)]. *)
Definition add_character (c : string) (r : Role) (eventNum : nat) (self : obj) : outcome obj :=
  match character_action_dict self !! c with
  | Some a => Ok (set_character_action_dict self (<[c := role_add r eventNum a]> (character_action_dict self)))
  | None => Raise (KeyError (KStr c))
  end.

(** [if cond: stmt]. *)
Definition when (cond : bool) (stmt : obj → outcome obj) (self : obj) : outcome obj :=
  if cond then stmt self else Ok self.

(** *** [__init__]: the empty index *)

Definition str_domain (a : StrAxis) : list string :=
  match a with
  | _result_of_AB_dict => LookupDicts.FINAL_RESULT
  | _first_fielder_position_dict => LookupDicts.POSITION
  | _pitch_type_dict => LookupDicts.PITCH_TYPE
  | _charge_type_dict => LookupDicts.CHARGE_TYPE
  | _swing_type_dict => LookupDicts.TYPE_OF_SWING
  | _contact_type_dict => LookupDicts.CONTACT_TYPE
  | _input_direction_dict => LookupDicts.INPUT_DIRECTION
  end.

(** The keys each int-keyed dict starts with; [score0] and [score1] are
    [rioStat.score(0)] and [rioStat.score(1)]. *)
Definition int_domain (inningsPlayed score0 score1 : Z) (a : IntAxis) : list Z :=
  match a with
  | _rbi_dict => range 0 5
  | _inning_dict => range 1 (inningsPlayed + 1)
  | _away_score_dict => range 0 (score0 + 1)
  | _home_score_dict => range 0 (score1 + 1)
  | _balls_dict => range 0 4
  | _strikes_dict => range 0 5
  | _outs_in_inning_dict => range 0 3
  | _half_inning_dict => range 0 2
  | _chem_on_base_dict => range 0 4
  | _runners_on_base_dict => range 0 4
  | _pitcher_stamina_dict => range 0 11
  | _star_chance_dict => range 0 2
  | _outs_during_event_dict => range 0 4
  | _pitch_in_strikezone_dict => range 0 2
  | _contact_frame_dict => range 0 11
  | _ball_position_strikezone => []
  | _x_ball_contact_pos => []
  end.

Definition no_actions : Actions := {| AtBat := ∅; Pitching := ∅; Fielding := ∅ |}.

(** [for characterDict in characterGameStats().values(): d[characterDict['CharID']] = {...}]. *)
Definition seed_characters (stats : list (string * CharacterStats)) : gmap string Actions :=
  foldl (λ d kv, <[CharID kv.2 := no_actions]> d) ∅ stats.

Definition empty_index (rioStat : RioStat.obj) : outcome obj :=
  score0 ← RioStat.score rioStat 0;
  score1 ← RioStat.score rioStat 1;
  Ok {| rioStat := rioStat;
        str_dict := λ a, dict_from_keys (str_domain a);
        int_dict := λ a, dict_from_keys (int_domain (RioStat.inningsPlayed rioStat) score0 score1 a);
        marker := λ _, ∅;
        character_action_dict := seed_characters (RioStat.characterGameStats rioStat) |}.

(** *** [__init__]: the body of the loop over the events *)

(** The runner block: base 0 when no base is occupied, else each occupied base. *)
Definition index_runners (currentEvent : EventObj.obj) (eventNum : nat) (self : obj) : outcome obj :=
  any ← EventObj.bool_runner_on_base currentEvent (-1);
  if any =? 0
  then add_int _runners_on_base_dict 0 eventNum self
  else for_each (range 1 4)
         (λ i self,
            b ← EventObj.bool_runner_on_base currentEvent i;
            when (negb (b =? 0)) (add_int _runners_on_base_dict i eventNum) self)
         self.

(** The statements guarded by [if not currentEvent.first_fielder_dict(): continue]. *)
Definition index_first_fielder (f : FirstFielder) (eventNum : nat) (self : obj) : outcome obj :=
  self ← add_character (Fielder_Character f) RFielding eventNum self;
  self ← when (bool_decide (Fielder_Bobble f ≠ "None")) (add_marker _bobble eventNum) self;
  self ← when (bool_decide (Fielder_Bobble f = "Fireball")) (add_marker _fireball_burn eventNum) self;
  self ← when (bool_decide (Fielder_Action f = "Sliding")) (add_marker _sliding_catch eventNum) self;
  self ← when (bool_decide (Fielder_Action f = "Walljump")) (add_marker _wall_jump eventNum) self;
  self ← add_str _first_fielder_position_dict (Fielder_Position f) eventNum self;
  when (bool_decide (Fielder_Manual_Selected f ≠ "No Selected Char"))
    (add_marker _manual_character_selection eventNum) self.

(** The statements guarded by [if not currentEvent.contact_dict(): continue]. *)
Definition index_contact (c : Contact) (eventNum : nat) (self : obj) : outcome obj :=
  self ← add_str _contact_type_dict (Type_of_Contact c) eventNum self;
  self ← add_str _input_direction_dict (Input_Direction_Stick c) eventNum self;
  self ← add_int _contact_frame_dict (Frame_of_Swing_Upon_Contact c) eventNum self;
  self ← when (Star_Swing_Five_Star c =? 1) (add_marker _five_star_dinger eventNum) self;
  self ← add_band _x_ball_contact_pos (round2 (Ball_Contact_Pos_X c)) eventNum self;
  match First_Fielder c with
  | None => Ok self
  | Some f => index_first_fielder f eventNum self
  end.

(** The statements guarded by [if not currentEvent.pitch_dict(): continue]. *)
Definition index_pitch (currentEvent : EventObj.obj) (p : Pitch) (eventNum : nat) (self : obj) : outcome obj :=
  self ← when ((EventObj.balls currentEvent =? 0) && (EventObj.strikes currentEvent =? 0))
           (add_marker _first_pitch_of_AB eventNum) self;
  self ← when (bool_decide (EventObj.result_of_AB currentEvent ≠ "None"))
           (add_marker _last_pitch_of_AB eventNum) self;
  self ← try_except_KeyError (add_str _pitch_type_dict (Pitch_Type p) eventNum) self;
  self ← try_except_KeyError (add_str _charge_type_dict (Charge_Type p) eventNum) self;
  self ← add_int _pitch_in_strikezone_dict (In_Strikezone p) eventNum self;
  self ← add_str _swing_type_dict (Type_of_Swing p) eventNum self;
  self ← when (Star_Pitch p =? 1) (add_marker _star_pitch eventNum) self;
  self ← add_band _ball_position_strikezone (round2 (Ball_Position_Strikezone p)) eventNum self;
  match Contact_ p with
  | None => Ok self
  | Some c => index_contact c eventNum self
  end.

(** The statements every event goes through.  The two operands of the
    lead-change test read the same two scores; they are read once. *)
Definition index_mandatory (currentEvent : EventObj.obj) (eventNum : nat) (self : obj) : outcome obj :=
  let batting_team := EventObj.half_inning currentEvent in
  let fielding_team := Z.abs (batting_team - 1) in
  batter ← EventObj.batter currentEvent;
  pitcher ← EventObj.pitcher currentEvent;
  self ← add_character batter RAtBat eventNum self;
  self ← add_character pitcher RPitching eventNum self;
  score0 ← EventObj.score currentEvent 0;
  self ← add_int _away_score_dict score0 eventNum self;
  score1 ← EventObj.score currentEvent 1;
  self ← add_int _home_score_dict score1 eventNum self;
  self ← add_marker (if score0 >? score1 then _away_team_winning
                     else if score0 <? score1 then _home_team_winning
                     else _game_tied) eventNum self;
  batting_score ← EventObj.score currentEvent batting_team;
  fielding_score ← EventObj.score currentEvent fielding_team;
  self ← when ((batting_score + EventObj.rbi currentEvent >? fielding_score)
               && (batting_score <=? fielding_score))
           (add_marker _lead_changed eventNum) self;
  self ← add_int _outs_in_inning_dict (EventObj.outs currentEvent) eventNum self;
  self ← add_int _chem_on_base_dict (EventObj.chem_links_on_base currentEvent) eventNum self;
  self ← add_int _strikes_dict (EventObj.strikes currentEvent) eventNum self;
  self ← add_int _balls_dict (EventObj.balls currentEvent) eventNum self;
  self ← add_int _inning_dict (EventObj.inning currentEvent) eventNum self;
  self ← add_int _rbi_dict (EventObj.rbi currentEvent) eventNum self;
  self ← add_int _pitcher_stamina_dict (EventObj.pitcher_stamina currentEvent) eventNum self;
  self ← add_int _star_chance_dict (EventObj.star_chance currentEvent) eventNum self;
  self ← add_int _outs_during_event_dict (EventObj.num_outs_during_play currentEvent) eventNum self;
  self ← add_int _half_inning_dict (EventObj.half_inning currentEvent) eventNum self;
  self ← add_str _result_of_AB_dict (EventObj.result_of_AB currentEvent) eventNum self;
  self ← index_runners currentEvent eventNum self;
  steal ← EventObj.bool_steal currentEvent (-1);
  when (negb (steal =? 0)) (add_marker _steal eventNum) self.

Definition index_event (eventNum : nat) (self : obj) : outcome obj :=
  currentEvent ← EventObj.__init__ (rioStat self) (Z.of_nat eventNum);
  self ← index_mandatory currentEvent eventNum self;
  match EventObj.pitch_dict currentEvent with
  | None => Ok self
  | Some p => index_pitch currentEvent p eventNum self
  end.

(** [EventSearch(rioStat)]: [enumerate] yields the positions [0 .. len-1]. *)
Definition __init__ (rioStat : RioStat.obj) : outcome obj :=
  self ← empty_index rioStat;
  for_each (seq 0 (length (RioStat.events rioStat))) index_event self.

(** *** The queries *)

Definition __errorCheck_baseNum (baseNum : Z) : outcome unit :=
  if bool_decide (Z.abs baseNum ∉ [0; 1; 2; 3])
  then Raise (ValueError ("Invalid base num " +:+ pretty baseNum +:+
                ". Function only accepts base numbers of -3 to 3."))
  else Ok ().

Definition __errorCheck_halfInningNum (halfInningNum : Z) : outcome unit :=
  if bool_decide (halfInningNum ∉ [0; 1])
  then Raise (ValueError ("Invalid Half Inning num " +:+ pretty halfInningNum +:+
                ". Function only accepts base numbers of 0 or 1."))
  else Ok ().

(** [self.eventFinal()]: the class defines no [eventFinal] (nor does
    [__init__] set one; [StatObj] has [final_event]), so the attribute
    lookup raises. *)
Definition eventFinal (self : obj) : outcome Z := Raise (AttributeError "eventFinal").

(** [l.remove(x)]: drops the first occurrence. *)
Fixpoint list_remove (x : Z) (l : list Z) : list Z :=
  match l with
  | [] => []
  | y :: l' => if bool_decide (x = y) then l' else y :: list_remove x l'
  end.

(** One iteration of the loop that sorts [baseNums] into
    [(exclude_bases, required_bases, optional_bases)]. *)
Definition sort_base (acc : list Z * list Z * list Z) (i : Z) : list Z * list Z * list Z :=
  let '(exclude_bases, required_bases, optional_bases) := acc in
  let exclude_bases :=
    if bool_decide (Z.abs i ∈ exclude_bases)
    then list_remove (Z.abs i) exclude_bases else exclude_bases in
  if i >? 0
  then (exclude_bases, required_bases ++ [i], optional_bases)
  else (exclude_bases, required_bases, optional_bases ++ [Z.abs i]).

Definition sort_bases (baseNums : list Z) : list Z * list Z * list Z :=
  foldl sort_base ([1; 2; 3], [], []) baseNums.

(** [set(range(n))] as a set of event ids. *)
Definition set_range (n : Z) : gset nat := set_seq 0 (Z.to_nat n).

Definition is_nil {A} (l : list A) : bool := match l with [] => true | _ => false end.

(** The print of ['required_bases'] is not modelled. *)
Definition runnerOnBaseEvents (self : obj) (baseNums : list Z) : outcome (gset nat) :=
  _ ← for_each baseNums (λ num _, __errorCheck_baseNum num) ();
  if (3 <? length baseNums)%nat
  then Raise (ValueError "Too many baseNums provided. runnerOnBaseEvents accepts at most 3 bases")
  else if bool_decide (baseNums = [0])
  then getitem_int (int_dict self _runners_on_base_dict) (KStr "None")
  else
    let runner_on_base := int_dict self _runners_on_base_dict in
    let '(exclude_bases, required_bases, optional_bases) := sort_bases baseNums in
    if negb (is_nil required_bases) && bool_decide (0 ∈ optional_bases)
    then Raise (ValueError "The argument 0 may only be provided alongside optional arguments or itself")
    else
      result ← (if negb (is_nil required_bases)
                then
                  final ← eventFinal self;
                  for_each required_bases
                    (λ base result, s ← getitem_int runner_on_base (KInt base); Ok (result ∩ s))
                    (set_range (final + 1))
                else Ok ∅);
      result ← (if bool_decide (result = ∅)
                then for_each optional_bases
                       (λ base result, s ← getitem_int runner_on_base (KInt base); Ok (result ∪ s))
                       result
                else Ok result);
      for_each exclude_bases
        (λ base result, s ← getitem_int runner_on_base (KInt base); Ok (result ∖ s))
        result.

(** What a caller passes as [class_variable]: one of the int-keyed dicts,
    or (in [pitcherStaminaEvents]) a str. *)
Inductive class_variable :=
  | CvDict (d : gmap Z (gset nat))
  | CvStr (s : string).

(** One iteration of the loop of [listInputHandling].  On a str the
    membership test [abs(i) not in class_variable] raises, and the rest of
    the body is not reached. *)
Definition listInputHandling_body (cv : class_variable) (to_zero : bool)
    (i : Z) (result : gset nat) : outcome (gset nat) :=
  match cv with
  | CvStr _ => Raise (TypeError "'in <string>' requires string as left operand, not int")
  | CvDict d =>
      if bool_decide (d !! Z.abs i = None) then Ok result
      else if i >=? 0
      then s ← getitem_int d (KInt i); Ok (result ∪ s)
      else if to_zero
      then for_each (range 0 (Z.abs i))
             (λ j result, s ← getitem_int d (KInt j); Ok (result ∪ s)) result
      else
        top ← dict_max d;
        for_each (range (Z.abs i) (top + 1))
          (λ j result, s ← getitem_int d (KInt j); Ok (result ∪ s)) result
  end.

Definition listInputHandling (inputList : list Z) (cv : class_variable)
    (to_zero : bool) : outcome (gset nat) :=
  for_each inputList (listInputHandling_body cv to_zero) ∅.

(** An argument that is either one number or a list (or set) of numbers:
    [x if isinstance(x, (list, set)) else [x]]. *)
Inductive arg :=
  | One (v : Z)
  | Many (l : list Z).

Definition as_list (a : arg) : list Z :=
  match a with One v => [v] | Many l => l end.

Definition inningEvents (self : obj) (inningNum : arg) : outcome (gset nat) :=
  listInputHandling (as_list inningNum) (CvDict (int_dict self _inning_dict)) false.

Definition awayTeamWinningEvents (self : obj) : gset nat := marker self _away_team_winning.
Definition homeTeamWinningEvents (self : obj) : gset nat := marker self _home_team_winning.
Definition gameTiedEvents (self : obj) : gset nat := marker self _game_tied.

Definition awayScoreEvents (self : obj) (awayScore : arg) : outcome (gset nat) :=
  listInputHandling (as_list awayScore) (CvDict (int_dict self _home_score_dict)) false.

Definition homeScoreEvents (self : obj) (homeScore : arg) : outcome (gset nat) :=
  listInputHandling (as_list homeScore) (CvDict (int_dict self _home_score_dict)) false.

Definition ballEvents (self : obj) (ballNum : arg) : outcome (gset nat) :=
  listInputHandling (as_list ballNum) (CvDict (int_dict self _balls_dict)) false.

Definition strikeEvents (self : obj) (strikeNum : arg) : outcome (gset nat) :=
  listInputHandling (as_list strikeNum) (CvDict (int_dict self _strikes_dict)) false.

Definition chemOnBaseEvents (self : obj) (chemNum : arg) : outcome (gset nat) :=
  listInputHandling (as_list chemNum) (CvDict (int_dict self _chem_on_base_dict)) false.

Definition rbiEvents (self : obj) (rbiNum : arg) : outcome (gset nat) :=
  listInputHandling (as_list rbiNum) (CvDict (int_dict self _rbi_dict)) false.

Definition halfInningEvents (self : obj) (halfInningNum : Z) : outcome (gset nat) :=
  _ ← __errorCheck_halfInningNum halfInningNum;
  getitem_int (int_dict self _half_inning_dict) (KInt halfInningNum).

Definition outsInInningEvents (self : obj) (outsNum : Z) : outcome (gset nat) :=
  _ ← __errorCheck_halfInningNum outsNum;
  if outsNum >=? 0
  then getitem_int (int_dict self _outs_in_inning_dict) (KInt outsNum)
  else for_each (range (Z.abs outsNum) 3)
         (λ i result, s ← getitem_int (int_dict self _outs_in_inning_dict) (KInt i);
                      Ok (result ∪ s))
         ∅.

Definition pitcherStaminaEvents (self : obj) (stamina : arg) : outcome (gset nat) :=
  listInputHandling (as_list stamina) (CvStr "Pitcher Stamina") true.

Definition numOutsDuringPlayEvents (self : obj) (numOuts : arg) : outcome (gset nat) :=
  listInputHandling (as_list numOuts) (CvDict (int_dict self _outs_during_event_dict)) false.

Definition contactFrameEvents (self : obj) (contactFrame : arg) : outcome (gset nat) :=
  listInputHandling (as_list contactFrame) (CvDict (int_dict self _contact_frame_dict)) false.

Definition characterAtBatEvents (self : obj) (char_id : string) : outcome (gset nat) :=
  if bool_decide (character_action_dict self !! char_id = None) then Ok ∅
  else a ← getitem_str (character_action_dict self) char_id; Ok (AtBat a).

Definition characterPitchingEvents (self : obj) (char_id : string) : outcome (gset nat) :=
  if bool_decide (character_action_dict self !! char_id = None) then Ok ∅
  else a ← getitem_str (character_action_dict self) char_id; Ok (Pitching a).

Definition characterFieldingEvents (self : obj) (char_id : string) : outcome (gset nat) :=
  if bool_decide (character_action_dict self !! char_id = None) then Ok ∅
  else a ← getitem_str (character_action_dict self) char_id; Ok (Fielding a).

Definition leadChangedEvents (self : obj) : gset nat := marker self _lead_changed.

End EventSearch.

(** * Vocabulary of the properties *)

(** ** Sides and scores of an event

    [batting_team] is the half inning, and [EventObj.score] reads
    ['Away Score'] for team 0 and ['Home Score'] for team 1. *)

Definition batting_score (e : Event) : Z :=
  if Half_Inning e =? 0 then Away_Score e else Home_Score e.

Definition fielding_score (e : Event) : Z :=
  if Half_Inning e =? 0 then Home_Score e else Away_Score e.

(** Before the play the batting side is not ahead; with the RBI of the play
    it is strictly ahead. *)
Definition lead_changes (e : Event) : Prop :=
  batting_score e ≤ fielding_score e ∧ batting_score e + RBI e > fielding_score e.

(** ** Runner occupancy *)

(** The runner sub-record of base 1, 2 or 3. *)
Definition runner_on (e : Event) (base : Z) : option Runner :=
  if base =? 1 then Runner_1B e
  else if base =? 2 then Runner_2B e
  else if base =? 3 then Runner_3B e
  else None.

Definition no_runners (e : Event) : Prop :=
  Runner_1B e = None ∧ Runner_2B e = None ∧ Runner_3B e = None.

(** What puts an event in the bucket of [base]: base 0 is the no-runner
    marker, bases 1 to 3 hold the events with a runner there. *)
Definition occupies (e : Event) (base : Z) : Prop :=
  (base = 0 ∧ no_runners e) ∨ (1 ≤ base ≤ 3 ∧ is_Some (runner_on e base)).

(** The bucket of [base] in the built index ([set()] when the key is missing). *)
Definition runner_bucket (es : EventSearch.obj) (base : Z) : gset nat :=
  default ∅ (EventSearch.int_dict es EventSearch._runners_on_base_dict !! base).

(** ** Participation *)

(** The role set of a character ([set()] when the character is no key). *)
Definition role_set (es : EventSearch.obj) (c : string) (r : EventSearch.Role) : gset nat :=
  match EventSearch.character_action_dict es !! c with
  | Some a => EventSearch.role_get r a
  | None => ∅
  end.

(** [s'] has the keys of [s], and its role sets are those of [s] extended by [Δ]. *)
Definition roles_extend (s s' : EventSearch.obj) (Δ : string → EventSearch.Role → nat → Prop) : Prop :=
  (∀ c, is_Some (EventSearch.character_action_dict s' !! c) ↔ is_Some (EventSearch.character_action_dict s !! c)) ∧
  ∀ c r x, x ∈ role_set s' c r ↔ x ∈ role_set s c r ∨ Δ c r x.

(** The event as [EventObj] sees it. *)
Definition view (rio : RioStat.obj) (e : Event) : EventObj.obj :=
  {| EventObj.rioStat := rio; EventObj.eventDict := e |}.

(** The character in role [r] at an event, if the event has one. *)
Definition plays (rio : RioStat.obj) (e : Event) (r : EventSearch.Role) (c : string) : Prop :=
  match r with
  | EventSearch.RAtBat => EventObj.batter (view rio e) = Ok c
  | EventSearch.RPitching => EventObj.pitcher (view rio e) = Ok c
  | EventSearch.RFielding =>
      ∃ f, EventObj.first_fielder_dict (view rio e) = Some f ∧ Fielder_Character f = c
  end.

(** ** Axes with a fixed key range *)

(** The int-keyed dicts that [__init__] seeds with a range of keys and never
    extends (all but the two banded position dicts). *)
Definition fixed_axis (a : EventSearch.IntAxis) : Prop :=
  a ≠ EventSearch._ball_position_strikezone ∧ a ≠ EventSearch._x_ball_contact_pos.

(** The keys of [d] are exactly the ints of [range(lo, hi)]. *)
Definition keys_are_range {V} (d : gmap Z V) (lo hi : Z) : Prop :=
  ∀ k, is_Some (d !! k) ↔ lo ≤ k < hi.

(** ** A [rioStat] whose names resolve

    The methods of [StatObj], except that [characterName] returns the
    [CharID] of the roster entry as it stands; this is what
    [get_character] gives, reached through an instance, for a [CharID] that
    is one of the names of [CHAR_NAME]. *)
Definition with_roster_names (st : StatObj.statJson) : RioStat.obj :=
  {| RioStat.inningsPlayed := StatObj.inningsPlayed st;
     RioStat.score := StatObj.score st;
     RioStat.characterGameStats := StatObj.characterGameStats st;
     RioStat.events := StatObj.events st;
     RioStat.characterName := λ teamNum rosterNum,
       _ ← ErrorChecker.check_team_num teamNum;
       _ ← ErrorChecker.check_roster_num rosterNum;
       key ← StatObj.getTeamString st teamNum (if rosterNum =? -1 then 0 else rosterNum);
       StatObj.roster_CharID st key |}.

(** ** Sample games *)

(** An index with no bucket at all; the validation of the runner query
    does not read the index. *)
Definition blank_index : EventSearch.obj :=
  {| EventSearch.rioStat := {| RioStat.inningsPlayed := 0; RioStat.score := λ _, Ok 0;
       RioStat.characterGameStats := []; RioStat.events := [];
       RioStat.characterName := λ _ _, Ok "" |};
     EventSearch.str_dict := λ _, ∅; EventSearch.int_dict := λ _, ∅;
     EventSearch.marker := λ _, ∅; EventSearch.character_action_dict := ∅ |}.


Module Sample.

(** An event without pitch: scores, RBI and runners vary. *)
Definition event (half away home rbi : Z) (r1 r2 r3 : option Runner)
    (p : option Pitch) : Event :=
  {| Inning := 1; Half_Inning := half; Away_Score := away; Home_Score := home;
     Balls := 0; Strikes := 0; Outs := 0; Star_Chance := 0; Pitcher_Stamina := 10;
     Chemistry_Links_on_Base := 0; Pitcher_Roster_Loc := 0; Batter_Roster_Loc := 1;
     RBI := rbi; Num_Outs_During_Play := 0; Result_of_AB := "None";
     Runner_1B := r1; Runner_2B := r2; Runner_3B := r3; Pitch_ := p |}.

Definition runner : Runner := {| Steal := "None" |}.

Definition contact (kind direction : string) : Contact :=
  {| Type_of_Contact := kind; Input_Direction_Stick := direction;
     Frame_of_Swing_Upon_Contact := 5; Star_Swing_Five_Star := 0;
     Ball_Contact_Pos_X := 0; First_Fielder := None |}.

Definition pitch (kind swing : string) (c : option Contact) : Pitch :=
  {| Pitch_Type := kind; Charge_Type := "N/A"; Star_Pitch := 0;
     Ball_Position_Strikezone := 1 # 8; In_Strikezone := 1;
     Type_of_Swing := swing; Contact_ := c |}.

Definition roster : list (string * CharacterStats) :=
  [("Away Roster 0", {| CharID := "Mario" |}); ("Away Roster 1", {| CharID := "Luigi" |});
   ("Away Roster 2", {| CharID := "Boo" |});
   ("Home Roster 0", {| CharID := "Peach" |}); ("Home Roster 1", {| CharID := "Daisy" |})].

(** A game of a current version with final score [away]-[home]. *)
Definition game (away home : Z) (evs : list Event) : StatObj.statJson :=
  {| StatObj.Version := Some "1.9.5"; StatObj.Away_Score := away;
     StatObj.Home_Score := home; StatObj.Innings_Played := 1;
     StatObj.Character_Game_Stats := roster; StatObj.Events := evs |}.

(** Two events: the away side takes the lead on a one-run play with the
    bases empty, then the home side bats with a runner on first. *)
Definition two_events : StatObj.statJson :=
  game 1 0 [event 0 0 0 1 None None None None;
            event 1 1 0 0 (Some runner) None None (Some (pitch "Curve" "None" None))].

(** One event, away score 1 and home score 0. *)
Definition away_leads : StatObj.statJson :=
  game 1 0 [event 1 1 0 0 None None None None].

(** One pitch each, with one value outside its canonical domain. *)
Definition unknown_pitch_type : StatObj.statJson :=
  game 0 0 [event 0 0 0 0 None None None (Some (pitch "Knuckle" "None" None))].

Definition unknown_swing_type : StatObj.statJson :=
  game 0 0 [event 0 0 0 0 None None None (Some (pitch "Curve" "Check" None))].

Definition unknown_contact_type : StatObj.statJson :=
  game 0 0 [event 0 0 0 0 None None None
              (Some (pitch "Curve" "Slap" (Some (contact "Tipped" "Left"))))].

Definition unknown_input_direction : StatObj.statJson :=
  game 0 0 [event 0 0 0 0 None None None
              (Some (pitch "Curve" "Slap" (Some (contact "Perfect" "Diagonal"))))].

Definition unknown_result : StatObj.statJson :=
  game 0 0 [{| Inning := 1; Half_Inning := 0; Away_Score := 0; Home_Score := 0;
               Balls := 0; Strikes := 0; Outs := 0; Star_Chance := 0;
               Pitcher_Stamina := 10; Chemistry_Links_on_Base := 0;
               Pitcher_Roster_Loc := 0; Batter_Roster_Loc := 1; RBI := 0;
               Num_Outs_During_Play := 0; Result_of_AB := "Balk";
               Runner_1B := None; Runner_2B := None; Runner_3B := None;
               Pitch_ := None |}].

End Sample.

(** * Properties *)

Import EventSearch.

(** ** Sequencing *)

Lemma bind_Ok_inv {A B} (m : outcome A) (f : A → outcome B) (b : B) :
  m ≫= f = Ok b → ∃ a, m = Ok a ∧ f a = Ok b.
Proof. destruct m as [a|e]; simpl; [eauto | discriminate]. Qed.

Lemma succeeds_Ok {A} (r : outcome A) : succeeds r = true → ∃ a, r = Ok a.
Proof. destruct r; [eauto | discriminate]. Qed.

Lemma bind_Raise {A B} (m : outcome A) (f : A → outcome B) (e : exn) :
  m = Raise e → m ≫= f = Raise e.
Proof. by intros ->. Qed.

(** Splits a hypothesis [H : (x ← m; ...) = Ok r] into its statements. *)
Ltac walk H :=
  repeat (let x := fresh "x" in
          let Hx := fresh "Hx" in
          apply bind_Ok_inv in H as (x & Hx & H)).

(** The loop over the event positions carries an invariant indexed by the
    number of events already indexed. *)
Lemma for_each_seq_invariant {S} (body : nat → S → outcome S) (I : nat → S → Prop) :
  ∀ (m k : nat) (s s' : S),
    I k s →
    (∀ n t t', (k ≤ n < k + m)%nat → I n t → body n t = Ok t' → I (Datatypes.S n) t') →
    for_each (seq k m) body s = Ok s' →
    I (k + m)%nat s'.
Proof.
  induction m as [|m IH]; intros k s s' HI Hstep H; simpl in H.
  - injection H as <-. by rewrite Nat.add_0_r.
  - apply bind_Ok_inv in H as (t & Ht & H).
    replace (k + Datatypes.S m)%nat with (Datatypes.S k + m)%nat by lia.
    apply (IH (Datatypes.S k) t s'); [| | done].
    + apply (Hstep k s t); [lia | done | done].
    + intros n u u' Hn. apply Hstep. lia.
Qed.

(** ** Reading an event *)

Lemma EventObj_init_Ok (rio : RioStat.obj) (n : nat) (ce : EventObj.obj) :
  EventObj.__init__ rio (Z.of_nat n) = Ok ce →
  ∃ e, RioStat.events rio !! n = Some e ∧ ce = {| EventObj.rioStat := rio; EventObj.eventDict := e |}.
Proof.
  unfold EventObj.__init__. intros H.
  case_bool_decide; [discriminate|].
  rewrite bool_decide_eq_false_2 in H by lia.
  rewrite Nat2Z.id in H.
  destruct (RioStat.events rio !! n) as [e|]; [|discriminate].
  injection H as <-. eauto.
Qed.

Lemma EventObj_init_lookup (rio : RioStat.obj) (n : nat) (e : Event) :
  RioStat.events rio !! n = Some e →
  EventObj.__init__ rio (Z.of_nat n) = Ok {| EventObj.rioStat := rio; EventObj.eventDict := e |}.
Proof.
  intros H. unfold EventObj.__init__.
  pose proof (lookup_lt_Some _ _ _ H) as Hlt.
  rewrite bool_decide_eq_false_2 by lia.
  rewrite bool_decide_eq_false_2 by lia.
  by rewrite Nat2Z.id, H.
Qed.

Lemma EventObj_score_Ok (ce : EventObj.obj) (teamNum v : Z) :
  EventObj.score ce teamNum = Ok v →
  (teamNum = 0 ∧ v = Away_Score (EventObj.eventDict ce)) ∨
  (teamNum = 1 ∧ v = Home_Score (EventObj.eventDict ce)).
Proof.
  unfold EventObj.score, ErrorChecker.check_team_num. intros H.
  destruct (decide (teamNum = 0)) as [->|H0]; [left; simpl in H; by simplify_eq|].
  destruct (decide (teamNum = 1)) as [->|H1]; [right; simpl in H; by simplify_eq|].
  rewrite !bool_decide_eq_true_2 in H by done. discriminate.
Qed.

(** ** The statements of the build, one attribute at a time *)

(** Unfolds the primitive statement of [H : stmt s = Ok s'] and replaces [s']. *)
Ltac prim H :=
  unfold when, try_except_KeyError, add_band, add_int, add_str, add_marker,
    add_character in H;
  simpl in H; repeat case_match; simplify_eq; simpl in *.

(** Rewrites [π s'] into [π s] across every statement that leaves the
    attribute [π] alone; compound statements are looked up among the
    [keeps] hints. *)
Create HintDb keeps.

Ltac keep π :=
  repeat match goal with
  | H : _ ?s = Ok ?s' |- _ =>
      let lhs := eval cbv beta in (π s') in
      let rhs := eval cbv beta in (π s) in
      let E := fresh "E" in
      assert (E : lhs = rhs)
        by first [ solve [eauto with keeps]
                 | prim H; first [ done | by rewrite !fn_lookup_insert_ne by done ] ];
      rewrite E; clear E H
  end.

(** ** What each block of the loop body leaves alone *)

Lemma index_runners_rioStat ce n s s' :
  index_runners ce n s = Ok s' → rioStat s' = rioStat s.
Proof.
  unfold index_runners. intros H. walk H. case_match.
  - keep rioStat. done.
  - simpl in H. walk H. simplify_eq. keep rioStat. done.
Qed.

Lemma index_runners_marker ce n m s s' :
  index_runners ce n s = Ok s' → marker s' m = marker s m.
Proof.
  unfold index_runners. intros H. walk H. case_match.
  - keep (λ s, marker s m). done.
  - simpl in H. walk H. simplify_eq. keep (λ s, marker s m). done.
Qed.

Lemma index_runners_characters ce n s s' :
  index_runners ce n s = Ok s' → character_action_dict s' = character_action_dict s.
Proof.
  unfold index_runners. intros H. walk H. case_match.
  - keep character_action_dict. done.
  - simpl in H. walk H. simplify_eq. keep character_action_dict. done.
Qed.

#[export] Hint Resolve index_runners_rioStat index_runners_marker
  index_runners_characters : keeps.

Lemma index_first_fielder_rioStat f n s s' :
  index_first_fielder f n s = Ok s' → rioStat s' = rioStat s.
Proof. unfold index_first_fielder. intros H. walk H. keep rioStat. done. Qed.

Lemma index_first_fielder_lead f n s s' :
  index_first_fielder f n s = Ok s' → marker s' _lead_changed = marker s _lead_changed.
Proof.
  unfold index_first_fielder. intros H. walk H.
  keep (λ s, marker s _lead_changed). done.
Qed.

Lemma index_first_fielder_runners f n s s' :
  index_first_fielder f n s = Ok s' →
  int_dict s' _runners_on_base_dict = int_dict s _runners_on_base_dict.
Proof.
  unfold index_first_fielder. intros H. walk H.
  keep (λ s, int_dict s _runners_on_base_dict). done.
Qed.

#[export] Hint Resolve index_first_fielder_rioStat index_first_fielder_lead
  index_first_fielder_runners : keeps.

Lemma index_contact_rioStat c n s s' :
  index_contact c n s = Ok s' → rioStat s' = rioStat s.
Proof. unfold index_contact. intros H. walk H. case_match; keep rioStat; done. Qed.

Lemma index_contact_lead c n s s' :
  index_contact c n s = Ok s' → marker s' _lead_changed = marker s _lead_changed.
Proof.
  unfold index_contact. intros H. walk H.
  case_match; keep (λ s, marker s _lead_changed); done.
Qed.

Lemma index_contact_runners c n s s' :
  index_contact c n s = Ok s' →
  int_dict s' _runners_on_base_dict = int_dict s _runners_on_base_dict.
Proof.
  unfold index_contact. intros H. walk H.
  case_match; keep (λ s, int_dict s _runners_on_base_dict); done.
Qed.

#[export] Hint Resolve index_contact_rioStat index_contact_lead
  index_contact_runners : keeps.

Lemma index_pitch_rioStat ce p n s s' :
  index_pitch ce p n s = Ok s' → rioStat s' = rioStat s.
Proof. unfold index_pitch. intros H. walk H. case_match; keep rioStat; done. Qed.

Lemma index_pitch_lead ce p n s s' :
  index_pitch ce p n s = Ok s' → marker s' _lead_changed = marker s _lead_changed.
Proof.
  unfold index_pitch. intros H. walk H.
  case_match; keep (λ s, marker s _lead_changed); done.
Qed.

Lemma index_pitch_runners ce p n s s' :
  index_pitch ce p n s = Ok s' →
  int_dict s' _runners_on_base_dict = int_dict s _runners_on_base_dict.
Proof.
  unfold index_pitch. intros H. walk H.
  case_match; keep (λ s, int_dict s _runners_on_base_dict); done.
Qed.

#[export] Hint Resolve index_pitch_rioStat index_pitch_lead index_pitch_runners : keeps.

Lemma index_mandatory_rioStat ce n s s' :
  index_mandatory ce n s = Ok s' → rioStat s' = rioStat s.
Proof. unfold index_mandatory. intros H. walk H. keep rioStat. done. Qed.

#[export] Hint Resolve index_mandatory_rioStat : keeps.

Lemma index_event_rioStat n s s' :
  index_event n s = Ok s' → rioStat s' = rioStat s.
Proof. unfold index_event. intros H. walk H. case_match; keep rioStat; done. Qed.

Lemma empty_index_rioStat rio s :
  empty_index rio = Ok s → rioStat s = rio.
Proof. unfold empty_index. intros H. walk H. by simplify_eq. Qed.

(** ** The lead-changed marker *)

Lemma index_mandatory_lead ce n s s' :
  index_mandatory ce n s = Ok s' →
  ∀ x, x ∈ marker s' _lead_changed ↔
       x ∈ marker s _lead_changed ∨ (x = n ∧ lead_changes (EventObj.eventDict ce)).
Proof.
  unfold index_mandatory. intros H x. walk H.
  keep (λ s, marker s _lead_changed).
  match goal with
  | Hb : EventObj.score ce (EventObj.half_inning ce) = Ok ?b,
    Hf : EventObj.score ce (Z.abs (EventObj.half_inning ce - 1)) = Ok ?f,
    Hw : when _ _ ?t = Ok ?t' |- _ =>
      assert (Hbf : b = batting_score (EventObj.eventDict ce) ∧
                    f = fielding_score (EventObj.eventDict ce));
      [ apply EventObj_score_Ok in Hb, Hf; unfold batting_score, fielding_score;
        unfold EventObj.half_inning in *;
        destruct Hb as [[Hh ->]|[Hh ->]]; rewrite Hh in *; simpl in *;
        destruct Hf as [[? ->]|[? ->]]; done
      | destruct Hbf as [-> ->];
        assert (Hl : ∀ y, y ∈ marker t' _lead_changed ↔
                       y ∈ marker t _lead_changed ∨
                       (y = n ∧ lead_changes (EventObj.eventDict ce)));
        [ intros y; unfold when, add_marker, lead_changes, EventObj.rbi in *;
          case_match eqn:Hc; simplify_eq; simpl;
          [ rewrite fn_lookup_insert; set_unfold; intuition lia
          | intuition lia ]
        | rewrite Hl; clear Hl Hw ] ]
  end.
  keep (λ s, marker s _lead_changed). done.
Qed.

Lemma index_event_lead n s s' :
  index_event n s = Ok s' →
  ∃ e, RioStat.events (rioStat s) !! n = Some e ∧
    ∀ x, x ∈ marker s' _lead_changed ↔
         x ∈ marker s _lead_changed ∨ (x = n ∧ lead_changes e).
Proof.
  unfold index_event. intros H. walk H.
  apply EventObj_init_Ok in Hx as (e & He & ->). exists e. split; [done|].
  intros x. apply index_mandatory_lead with (x := x) in Hx0. simpl in Hx0.
  rewrite <- Hx0. clear Hx0.
  case_match; keep (λ s, marker s _lead_changed); done.
Qed.

(** C8. Once the index is built, an event id is in the lead-changed set
    exactly when it is the position of an event at which the batting side's
    score was at most the fielding side's and, with the RBI of the event
    added, is strictly greater; [leadChangedEvents] returns that set. *)
Theorem leadChangedEvents_spec (rio : RioStat.obj) (es : EventSearch.obj) :
  __init__ rio = Ok es →
  ∀ n, n ∈ leadChangedEvents es ↔
       ∃ e, RioStat.events rio !! n = Some e ∧
            batting_score e ≤ fielding_score e ∧
            batting_score e + RBI e > fielding_score e.
Proof.
  unfold __init__. intros H. walk H.
  pose (I := λ (k : nat) (s : EventSearch.obj),
     rioStat s = rio ∧
     ∀ n, n ∈ marker s _lead_changed ↔
          (n < k)%nat ∧ ∃ e, RioStat.events rio !! n = Some e ∧ lead_changes e).
  assert (HI : I (0 + length (RioStat.events rio))%nat es).
  { apply (for_each_seq_invariant index_event I _ _ x); [| |done].
    - split; [by apply empty_index_rioStat|].
      unfold empty_index in Hx. walk Hx. simplify_eq.
      intros n. simpl. split; [by intros ?%elem_of_empty | lia].
    - intros n t t' Hn [Hr Hm] Hstep. split.
      + by rewrite (index_event_rioStat _ _ _ Hstep).
      + apply index_event_lead in Hstep as (e & He & Hstep). rewrite Hr in He.
        intros y. rewrite Hstep, Hm. split.
        * intros [[? ?]|[-> ?]]; [split; [lia|done] | split; [lia|eauto]].
        * intros [Hy (e' & He' & Hl)].
          destruct (decide (y = n)) as [->|]; [right | left; split; [lia|eauto]].
          split; [done|]. congruence. }
  destruct HI as [_ HI]. intros n. unfold leadChangedEvents. rewrite HI.
  fold (lead_changes). split; [intros [_ ?]; done|]. intros (e & He & Hl). split; [|eauto].
  apply lookup_lt_Some in He. lia.
Qed.

Lemma leadChangedEvents_spec_witness :
  ∃ es, __init__ (with_roster_names Sample.two_events) = Ok es ∧
    ∀ n, n ∈ leadChangedEvents es ↔
         ∃ e, RioStat.events (with_roster_names Sample.two_events) !! n = Some e ∧
              batting_score e ≤ fielding_score e ∧
              batting_score e + RBI e > fielding_score e.
Proof.
  destruct (succeeds_Ok (__init__ (with_roster_names Sample.two_events))) as [es E].
  { vm_compute. reflexivity. }
  exists es. split; [exact E|].
  exact (leadChangedEvents_spec (with_roster_names Sample.two_events) es E).
Defined.

(** ** The runner-occupancy buckets *)

Lemma add_int_bucket a k n s s' :
  add_int a k n s = Ok s' →
  ∀ a' b x, x ∈ default ∅ (int_dict s' a' !! b) ↔
            x ∈ default ∅ (int_dict s a' !! b) ∨ (a' = a ∧ b = k ∧ x = n).
Proof.
  unfold add_int. intros H a' b x.
  destruct (int_dict s a !! k) as [t|] eqn:Hk; [|discriminate].
  injection H as <-. simpl.
  destruct (decide (a = a')) as [<-|Ha].
  - rewrite fn_lookup_insert.
    destruct (decide (k = b)) as [<-|Hb].
    + rewrite lookup_insert_eq, Hk. simpl. set_solver.
    + rewrite lookup_insert_ne by done. naive_solver.
  - rewrite fn_lookup_insert_ne by done. naive_solver.
Qed.

Lemma bool_runner_on_base_any ce :
  EventObj.bool_runner_on_base ce (-1) =
  Ok (if truthy (Runner_1B (EventObj.eventDict ce)) || truthy (Runner_2B (EventObj.eventDict ce))
         || truthy (Runner_3B (EventObj.eventDict ce)) then 1 else 0).
Proof.
  unfold EventObj.bool_runner_on_base, EventObj.bool_runner_on_one_base, EventObj.runner_get.
  simpl.
  by destruct (Runner_1B (EventObj.eventDict ce)), (Runner_2B (EventObj.eventDict ce)),
    (Runner_3B (EventObj.eventDict ce)).
Qed.

Lemma bool_runner_on_base_one ce i :
  1 ≤ i ≤ 3 →
  EventObj.bool_runner_on_base ce i = Ok (if truthy (runner_on (EventObj.eventDict ce) i) then 1 else 0).
Proof.
  intros Hi. assert (i = 1 ∨ i = 2 ∨ i = 3) as [->|[->| ->]] by lia; reflexivity.
Qed.

Lemma index_runners_buckets ce n s s' :
  index_runners ce n s = Ok s' →
  ∀ b x, x ∈ runner_bucket s' b ↔
         x ∈ runner_bucket s b ∨ (x = n ∧ occupies (EventObj.eventDict ce) b).
Proof.
  unfold index_runners, runner_bucket. rewrite bool_runner_on_base_any.
  change (range 1 4) with [1; 2; 3]. cbn [for_each].
  rewrite !bool_runner_on_base_one by lia.
  unfold occupies, no_runners, runner_on. simpl.
  intros H b x.
  destruct (Runner_1B (EventObj.eventDict ce)), (Runner_2B (EventObj.eventDict ce)),
    (Runner_3B (EventObj.eventDict ce)); simpl in H; walk H;
    repeat match goal with
    | Hx : add_int _ _ _ _ = Ok _ |- _ =>
        apply add_int_bucket with (a' := _runners_on_base_dict) (b := b) (x := x) in Hx
    | Hx : Ok _ = Ok _ |- _ => injection Hx as <-
    end.
  all: try (repeat match goal with Hx : _ ↔ _ |- _ => rewrite Hx; clear Hx end).
  all: assert (Hb : b = 0 ∨ b = 1 ∨ b = 2 ∨ b = 3 ∨ (b < 0 ∨ 3 < b)) by lia.
  all: destruct Hb as [->|[->|[->|[->|Hb]]]]; simpl; rewrite ?is_Some_alt;
    try (intuition (first [lia | discriminate | done])).
Qed.

Lemma dict_from_keys_Some `{Countable K} (keys : list K) (k : K) (s : gset nat) :
  dict_from_keys keys !! k = Some s → s = ∅ ∧ k ∈ keys.
Proof.
  unfold dict_from_keys. intros Hk. apply elem_of_list_to_map_2 in Hk.
  apply list_elem_of_fmap in Hk as (k' & Heq & Hin). by simplify_eq.
Qed.

Lemma dict_from_keys_elem `{Countable K} (keys : list K) (k : K) :
  k ∈ keys → dict_from_keys keys !! k = Some ∅.
Proof.
  intros Hin. destruct (dict_from_keys keys !! k) as [s|] eqn:Hk.
  - by apply dict_from_keys_Some in Hk as [-> _].
  - unfold dict_from_keys in Hk. apply not_elem_of_list_to_map_2 in Hk.
    exfalso. apply Hk. rewrite <- list_fmap_compose. simpl.
    by rewrite list_fmap_id.
Qed.

Lemma index_mandatory_buckets ce n s s' :
  index_mandatory ce n s = Ok s' →
  ∀ b x, x ∈ runner_bucket s' b ↔
         x ∈ runner_bucket s b ∨ (x = n ∧ occupies (EventObj.eventDict ce) b).
Proof.
  unfold index_mandatory. intros H b x. walk H.
  unfold runner_bucket at 1.
  keep (λ s, int_dict s _runners_on_base_dict).
  match goal with
  | Hr : index_runners _ _ _ = Ok _ |- _ =>
      apply index_runners_buckets with (b := b) (x := x) in Hr;
      unfold runner_bucket in Hr at 1; rewrite Hr; clear Hr
  end.
  unfold runner_bucket.
  keep (λ s, int_dict s _runners_on_base_dict). done.
Qed.

Lemma index_event_buckets n s s' :
  index_event n s = Ok s' →
  ∃ e, RioStat.events (rioStat s) !! n = Some e ∧
    ∀ b x, x ∈ runner_bucket s' b ↔ x ∈ runner_bucket s b ∨ (x = n ∧ occupies e b).
Proof.
  unfold index_event. intros H.
  apply bind_Ok_inv in H as (ce & Hce & H).
  apply bind_Ok_inv in H as (t & Ht & H).
  apply EventObj_init_Ok in Hce as (e & He & ->). exists e. split; [done|].
  intros b x.
  rewrite <- (index_mandatory_buckets _ _ _ _ Ht b x). simpl.
  unfold runner_bucket.
  case_match; keep (λ s, int_dict s _runners_on_base_dict); done.
Qed.

Lemma built_runner_buckets (rio : RioStat.obj) (es : EventSearch.obj) :
  __init__ rio = Ok es →
  ∀ b n, n ∈ runner_bucket es b ↔ ∃ e, RioStat.events rio !! n = Some e ∧ occupies e b.
Proof.
  unfold __init__. intros H. walk H.
  pose (I := λ (k : nat) (s : EventSearch.obj),
     rioStat s = rio ∧
     ∀ b n, n ∈ runner_bucket s b ↔
            (n < k)%nat ∧ ∃ e, RioStat.events rio !! n = Some e ∧ occupies e b).
  assert (HI : I (0 + length (RioStat.events rio))%nat es).
  { apply (for_each_seq_invariant index_event I _ _ x); [| |done].
    - split; [by apply empty_index_rioStat|].
      unfold empty_index in Hx. walk Hx. simplify_eq.
      intros b n. unfold runner_bucket. simpl.
      destruct (dict_from_keys (range 0 4) !! b) as [t|] eqn:Hb; simpl;
        [apply dict_from_keys_Some in Hb as [-> _]|];
        (split; [by intros ?%elem_of_empty | lia]).
    - intros n t t' Hn [Hr Hm] Hstep. split.
      + by rewrite (index_event_rioStat _ _ _ Hstep).
      + apply index_event_buckets in Hstep as (e & He & Hstep). rewrite Hr in He.
        intros b y. rewrite Hstep, Hm. split.
        * intros [[? ?]|[-> ?]]; [split; [lia|done] | split; [lia|eauto]].
        * intros [Hy (e' & He' & Hl)].
          destruct (decide (y = n)) as [->|]; [right | left; split; [lia|eauto]].
          split; [done|]. congruence. }
  destruct HI as [_ HI]. intros b n. rewrite HI.
  split; [intros [_ ?]; done|]. intros (e & He & Hl). split; [|eauto].
  apply lookup_lt_Some in He. lia.
Qed.

(** C10. Once the index is built: every event id [0 .. N-1] is in the base-0
    bucket or in one of the buckets of bases 1 to 3; the base-0 bucket is
    disjoint from each of those; and an event id is in the base-0 bucket
    exactly when its event has no runner sub-record on base 1, 2 or 3. *)
Theorem runner_buckets_invariant (rio : RioStat.obj) (es : EventSearch.obj) :
  __init__ rio = Ok es →
  (∀ n, (n < length (RioStat.events rio))%nat →
        n ∈ runner_bucket es 0 ∨ n ∈ runner_bucket es 1 ∨
        n ∈ runner_bucket es 2 ∨ n ∈ runner_bucket es 3) ∧
  (∀ b, 1 ≤ b ≤ 3 → runner_bucket es 0 ## runner_bucket es b) ∧
  (∀ n e, RioStat.events rio !! n = Some e →
          (n ∈ runner_bucket es 0 ↔
           Runner_1B e = None ∧ Runner_2B e = None ∧ Runner_3B e = None)).
Proof.
  intros H. pose proof (built_runner_buckets rio es H) as Hb.
  split; [|split].
  - intros n Hn. apply lookup_lt_is_Some_2 in Hn as [e He].
    rewrite !Hb.
    destruct (Runner_1B e) as [r1|] eqn:H1; [right; left; exists e; split; [done|];
      right; split; [lia|]; unfold runner_on; simpl; rewrite H1; eauto|].
    destruct (Runner_2B e) as [r2|] eqn:H2; [right; right; left; exists e; split; [done|];
      right; split; [lia|]; unfold runner_on; simpl; rewrite H2; eauto|].
    destruct (Runner_3B e) as [r3|] eqn:H3; [right; right; right; exists e; split; [done|];
      right; split; [lia|]; unfold runner_on; simpl; rewrite H3; eauto|].
    left. exists e. split; [done|]. left. done.
  - intros b Hrange. apply elem_of_disjoint. intros n. rewrite !Hb.
    intros (e & He & [[_ (H1 & H2 & H3)]|[? _]]) (e' & He' & [[? _]|[_ Hs]]); try lia.
    assert (e' = e) as -> by congruence.
    unfold runner_on in Hs.
    assert (b = 1 ∨ b = 2 ∨ b = 3) as [->|[->| ->]] by lia; simpl in Hs;
      rewrite ?H1, ?H2, ?H3 in Hs; by apply is_Some_None in Hs.
  - intros n e He. rewrite Hb. split.
    + intros (e' & He' & [[_ Hn]|[? _]]); [|lia]. by assert (e = e') as -> by congruence.
    + intros Hn. exists e. split; [done|]. by left.
Qed.

Lemma runner_buckets_invariant_witness :
  ∃ es, __init__ (with_roster_names Sample.two_events) = Ok es ∧
    (∀ n, (n < length (RioStat.events (with_roster_names Sample.two_events)))%nat →
          n ∈ runner_bucket es 0 ∨ n ∈ runner_bucket es 1 ∨
          n ∈ runner_bucket es 2 ∨ n ∈ runner_bucket es 3) ∧
    (∀ b, 1 ≤ b ≤ 3 → runner_bucket es 0 ## runner_bucket es b) ∧
    (∀ n e, RioStat.events (with_roster_names Sample.two_events) !! n = Some e →
            (n ∈ runner_bucket es 0 ↔
             Runner_1B e = None ∧ Runner_2B e = None ∧ Runner_3B e = None)).
Proof.
  destruct (succeeds_Ok (__init__ (with_roster_names Sample.two_events))) as [es E].
  { vm_compute. reflexivity. }
  exists es. split; [exact E|].
  exact (runner_buckets_invariant (with_roster_names Sample.two_events) es E).
Defined.

(** ** The participation index *)

Lemma roles_extend_same s s' :
  character_action_dict s' = character_action_dict s → roles_extend s s' (λ _ _ _, False).
Proof. intros E. unfold roles_extend, role_set. rewrite E. naive_solver. Qed.

Lemma roles_extend_trans s t u Δ1 Δ2 (Δ : string → Role → nat → Prop) :
  roles_extend s t Δ1 → roles_extend t u Δ2 →
  (∀ c r x, Δ c r x ↔ Δ1 c r x ∨ Δ2 c r x) →
  roles_extend s u Δ.
Proof.
  intros [Hk1 Hr1] [Hk2 Hr2] HΔ. split.
  - intros c. by rewrite Hk2, Hk1.
  - intros c r x. rewrite Hr2, Hr1, HΔ. tauto.
Qed.

Lemma add_character_roles c r n s s' :
  add_character c r n s = Ok s' →
  roles_extend s s' (λ c' r' x, c' = c ∧ r' = r ∧ x = n).
Proof.
  unfold add_character. intros H.
  destruct (character_action_dict s !! c) as [a|] eqn:Hc; [|discriminate].
  injection H as <-. split; simpl.
  - intros c'. destruct (decide (c = c')) as [<-|Hne].
    + rewrite lookup_insert_eq, Hc. split; eauto.
    + by rewrite lookup_insert_ne.
  - intros c' r' x. unfold role_set. simpl.
    destruct (decide (c = c')) as [<-|Hne].
    + rewrite lookup_insert_eq, Hc.
      destruct r, r'; simpl; rewrite ?elem_of_union, ?elem_of_singleton; naive_solver.
    + rewrite lookup_insert_ne by done. naive_solver.
Qed.

Lemma index_first_fielder_roles f n s s' :
  index_first_fielder f n s = Ok s' →
  roles_extend s s' (λ c r x, x = n ∧ r = RFielding ∧ Fielder_Character f = c).
Proof.
  unfold index_first_fielder. intros H.
  apply bind_Ok_inv in H as (t & Ht & H). apply add_character_roles in Ht.
  eapply roles_extend_trans; [exact Ht | apply roles_extend_same |].
  - walk H. keep character_action_dict. done.
  - naive_solver.
Qed.

Lemma index_contact_roles c0 n s s' :
  index_contact c0 n s = Ok s' →
  roles_extend s s' (λ c r x, x = n ∧ r = RFielding ∧
                       ∃ f, First_Fielder c0 = Some f ∧ Fielder_Character f = c).
Proof.
  unfold index_contact. intros H. walk H.
  destruct (First_Fielder c0) as [f|].
  - apply index_first_fielder_roles in H.
    eapply roles_extend_trans; [apply roles_extend_same | exact H |].
    + keep character_action_dict. done.
    + naive_solver.
  - eapply roles_extend_trans; [apply roles_extend_same | apply roles_extend_same |].
    + keep character_action_dict. done.
    + done.
    + naive_solver.
Qed.

Lemma index_pitch_roles ce p n s s' :
  index_pitch ce p n s = Ok s' →
  roles_extend s s' (λ c r x, x = n ∧ r = RFielding ∧
                       ∃ f, Contact_ p ≫= First_Fielder = Some f ∧ Fielder_Character f = c).
Proof.
  unfold index_pitch. intros H. walk H.
  destruct (Contact_ p) as [c0|].
  - apply index_contact_roles in H.
    eapply roles_extend_trans; [apply roles_extend_same | exact H |].
    + keep character_action_dict. done.
    + naive_solver.
  - eapply roles_extend_trans; [apply roles_extend_same | apply roles_extend_same |].
    + keep character_action_dict. done.
    + done.
    + naive_solver.
Qed.

Lemma index_mandatory_roles ce n s s' :
  index_mandatory ce n s = Ok s' →
  roles_extend s s' (λ c r x, x = n ∧
     ((r = RAtBat ∧ EventObj.batter ce = Ok c) ∨ (r = RPitching ∧ EventObj.pitcher ce = Ok c))).
Proof.
  unfold index_mandatory. intros H.
  apply bind_Ok_inv in H as (b & Hb & H). apply bind_Ok_inv in H as (p & Hp & H).
  apply bind_Ok_inv in H as (t & Ht & H). apply bind_Ok_inv in H as (u & Hu & H).
  apply add_character_roles in Ht, Hu.
  eapply roles_extend_trans; [| apply roles_extend_same |].
  - eapply (roles_extend_trans s t u _ _
             (λ c r x, (c = b ∧ r = RAtBat ∧ x = n) ∨ (c = p ∧ r = RPitching ∧ x = n)));
      [exact Ht | exact Hu | done].
  - walk H. keep character_action_dict. done.
  - intros c r x. simpl. rewrite Hb, Hp. naive_solver.
Qed.

Lemma index_event_roles n s s' :
  index_event n s = Ok s' →
  ∃ e, RioStat.events (rioStat s) !! n = Some e ∧
       roles_extend s s' (λ c r x, x = n ∧ plays (rioStat s) e r c).
Proof.
  unfold index_event. intros H.
  apply bind_Ok_inv in H as (ce & Hce & H).
  apply bind_Ok_inv in H as (t & Ht & H).
  apply EventObj_init_Ok in Hce as (e & He & ->). exists e. split; [done|].
  apply index_mandatory_roles in Ht.
  unfold EventObj.pitch_dict in H. simpl in H.
  destruct (Pitch_ e) as [p|] eqn:Hpitch.
  - apply index_pitch_roles in H.
    eapply roles_extend_trans; [exact Ht | exact H |].
    intros c r x. unfold plays, view, EventObj.first_fielder_dict, EventObj.contact_dict,
      EventObj.pitch_dict. simpl. rewrite Hpitch. simpl.
    destruct r; naive_solver.
  - injection H as <-.
    eapply roles_extend_trans; [exact Ht | by apply roles_extend_same |].
    intros c r x. unfold plays, view, EventObj.first_fielder_dict, EventObj.contact_dict,
      EventObj.pitch_dict. simpl. rewrite Hpitch. simpl.
    destruct r; naive_solver.
Qed.

Lemma seed_characters_lookup (stats : list (string * CharacterStats)) (c : string) :
  (∀ a, seed_characters stats !! c = Some a → a = no_actions) ∧
  (is_Some (seed_characters stats !! c) ↔ ∃ kv, kv ∈ stats ∧ CharID kv.2 = c).
Proof.
  unfold seed_characters.
  cut (∀ d : gmap string Actions,
         (∀ a, d !! c = Some a → a = no_actions) →
         (∀ a, foldl (λ d kv, <[CharID kv.2 := no_actions]> d) d stats !! c = Some a →
               a = no_actions) ∧
         (is_Some (foldl (λ d kv, <[CharID kv.2 := no_actions]> d) d stats !! c) ↔
          is_Some (d !! c) ∨ ∃ kv, kv ∈ stats ∧ CharID kv.2 = c)).
  { intros Hgen. destruct (Hgen ∅) as [H1 H2].
    - intros a. by rewrite lookup_empty.
    - split; [done|]. rewrite H2, lookup_empty. split; [|eauto].
      intros [Hn|?]; [by apply is_Some_None in Hn | done]. }
  induction stats as [|kv stats IH]; intros d Hd; simpl.
  - split; [done|]. split; [eauto|]. intros [?|(kv & Hin & _)]; [done|].
    by apply elem_of_nil in Hin.
  - destruct (IH (<[CharID kv.2 := no_actions]> d)) as [H1 H2].
    + intros a. destruct (decide (CharID kv.2 = c)) as [->|Hne].
      * rewrite lookup_insert_eq. congruence.
      * rewrite lookup_insert_ne by done. apply Hd.
    + split; [done|]. rewrite H2. clear H1 H2.
      destruct (decide (CharID kv.2 = c)) as [Heq|Hne].
      * rewrite <- Heq, lookup_insert_eq. split; [|eauto].
        intros _. right. exists kv. split; [apply elem_of_cons; by left | done].
      * rewrite lookup_insert_ne by done. split.
        -- intros [?|(kv' & Hin & Hc)]; [by left|]. right. exists kv'.
           split; [apply elem_of_cons; by right | done].
        -- intros [?|(kv' & Hin & Hc)]; [by left|]. right. exists kv'. split; [|done].
           apply elem_of_cons in Hin as [->|Hin]; [done|done].
Qed.

Lemma built_roles (rio : RioStat.obj) (es : EventSearch.obj) :
  __init__ rio = Ok es →
  (∀ c, is_Some (character_action_dict es !! c) ↔
        ∃ kv, kv ∈ RioStat.characterGameStats rio ∧ CharID kv.2 = c) ∧
  ∀ c r n, n ∈ role_set es c r ↔ ∃ e, RioStat.events rio !! n = Some e ∧ plays rio e r c.
Proof.
  unfold __init__. intros H.
  apply bind_Ok_inv in H as (s0 & Hs0 & H).
  pose (I := λ (k : nat) (s : EventSearch.obj),
     rioStat s = rio ∧
     (∀ c, is_Some (character_action_dict s !! c) ↔
           ∃ kv, kv ∈ RioStat.characterGameStats rio ∧ CharID kv.2 = c) ∧
     ∀ c r n, n ∈ role_set s c r ↔
              (n < k)%nat ∧ ∃ e, RioStat.events rio !! n = Some e ∧ plays rio e r c).
  assert (HI : I (0 + length (RioStat.events rio))%nat es).
  { apply (for_each_seq_invariant index_event I _ _ s0); [| |done].
    - split; [by apply empty_index_rioStat|].
      unfold empty_index in Hs0. walk Hs0. simplify_eq. simpl.
      split.
      + intros c. apply seed_characters_lookup.
      + intros c r n. unfold role_set. simpl.
        destruct (seed_characters (RioStat.characterGameStats rio) !! c) as [a|] eqn:Hc.
        * apply (proj1 (seed_characters_lookup _ c)) in Hc as ->.
          destruct r; simpl; (split; [by intros ?%elem_of_empty | lia]).
        * split; [by intros ?%elem_of_empty | lia].
    - intros n t t' Hn (Hr & Hk & Hm) Hstep. split; [|split].
      + by rewrite (index_event_rioStat _ _ _ Hstep).
      + apply index_event_roles in Hstep as (e & He & [Hk' _]).
        intros c. by rewrite Hk', Hk.
      + apply index_event_roles in Hstep as (e & He & [_ Hstep]). rewrite Hr in He, Hstep.
        intros c r y. rewrite Hstep, Hm. split.
        * intros [[? ?]|[-> ?]]; [split; [lia|done] | split; [lia|eauto]].
        * intros [Hy (e' & He' & Hl)].
          destruct (decide (y = n)) as [->|]; [right | left; split; [lia|eauto]].
          split; [done|]. congruence. }
  destruct HI as (_ & Hk & HI). split; [done|]. intros c r n. rewrite HI.
  split; [intros [_ ?]; done|]. intros (e & He & Hl). split; [|eauto].
  apply lookup_lt_Some in He. lia.
Qed.

Lemma characterAtBatEvents_role es c :
  characterAtBatEvents es c = Ok (role_set es c RAtBat).
Proof.
  unfold characterAtBatEvents, role_set, getitem_str.
  destruct (character_action_dict es !! c) as [a|]; by simpl.
Qed.

Lemma characterPitchingEvents_role es c :
  characterPitchingEvents es c = Ok (role_set es c RPitching).
Proof.
  unfold characterPitchingEvents, role_set, getitem_str.
  destruct (character_action_dict es !! c) as [a|]; by simpl.
Qed.

Lemma characterFieldingEvents_role es c :
  characterFieldingEvents es c = Ok (role_set es c RFielding).
Proof.
  unfold characterFieldingEvents, role_set, getitem_str.
  destruct (character_action_dict es !! c) as [a|]; by simpl.
Qed.

(** C9. The participation index has a key for every character of the
    roster, and the three participation queries never raise: for any
    character identity they return a set, which is empty for a character
    that is in no event in that role and for an identity that is no key of
    the index. *)
Theorem participation_queries_total (rio : RioStat.obj) (es : EventSearch.obj) :
  __init__ rio = Ok es →
  (∀ key stats, (key, stats) ∈ RioStat.characterGameStats rio →
                is_Some (character_action_dict es !! CharID stats)) ∧
  ∀ char_id,
    (is_Ok (characterAtBatEvents es char_id) ∧
     is_Ok (characterPitchingEvents es char_id) ∧
     is_Ok (characterFieldingEvents es char_id)) ∧
    ((∀ n e, RioStat.events rio !! n = Some e → ¬ plays rio e RAtBat char_id) →
     characterAtBatEvents es char_id = Ok ∅) ∧
    ((∀ n e, RioStat.events rio !! n = Some e → ¬ plays rio e RPitching char_id) →
     characterPitchingEvents es char_id = Ok ∅) ∧
    ((∀ n e, RioStat.events rio !! n = Some e → ¬ plays rio e RFielding char_id) →
     characterFieldingEvents es char_id = Ok ∅) ∧
    (character_action_dict es !! char_id = None →
     characterAtBatEvents es char_id = Ok ∅ ∧
     characterPitchingEvents es char_id = Ok ∅ ∧
     characterFieldingEvents es char_id = Ok ∅).
Proof.
  intros H. destruct (built_roles rio es H) as [Hk Hr]. split.
  - intros key stats Hin. apply Hk. by exists (key, stats).
  - intros c. rewrite characterAtBatEvents_role, characterPitchingEvents_role,
      characterFieldingEvents_role.
    assert (Hempty : ∀ r, (∀ n e, RioStat.events rio !! n = Some e → ¬ plays rio e r c) →
                          role_set es c r = ∅).
    { intros r Hno. apply set_eq. intros n. rewrite Hr. split.
      - intros (e & He & Hp). by destruct (Hno n e He).
      - by intros ?%elem_of_empty. }
    split; [repeat split; eexists; reflexivity|].
    split; [intros ?; f_equal; by apply Hempty|].
    split; [intros ?; f_equal; by apply Hempty|].
    split; [intros ?; f_equal; by apply Hempty|].
    intros Hnone. unfold role_set. by rewrite Hnone.
Qed.

Lemma participation_queries_total_witness :
  ∃ es, __init__ (with_roster_names Sample.two_events) = Ok es ∧
    (∀ key stats, (key, stats) ∈ RioStat.characterGameStats (with_roster_names Sample.two_events) →
                  is_Some (character_action_dict es !! CharID stats)) ∧
    characterAtBatEvents es "Boo" = Ok ∅ ∧
    characterAtBatEvents es "Toadette" = Ok ∅.
Proof.
  destruct (succeeds_Ok (__init__ (with_roster_names Sample.two_events))) as [es E].
  { vm_compute. reflexivity. }
  exists es. split; [exact E|].
  destruct (participation_queries_total (with_roster_names Sample.two_events) es E)
    as [Hseed Hq].
  split; [exact Hseed|]. split.
  - destruct (Hq "Boo") as (_ & Hbat & _). apply Hbat. intros n e He.
    destruct n as [|[|n]]; simpl in He; [| |discriminate He];
      injection He as <-; vm_compute; discriminate.
  - destruct (Hq "Toadette") as (_ & Hbat & _). apply Hbat. intros n e He.
    destruct n as [|[|n]]; simpl in He; [| |discriminate He];
      injection He as <-; vm_compute; discriminate.
Defined.

(** ** The runner-occupancy query *)

Lemma errorCheck_baseNum_outcome (baseNum : Z) :
  (-3 ≤ baseNum ≤ 3 ∧ __errorCheck_baseNum baseNum = Ok ()) ∨
  (¬ -3 ≤ baseNum ≤ 3 ∧ raises_ValueError (__errorCheck_baseNum baseNum)).
Proof.
  unfold __errorCheck_baseNum. case_bool_decide as Hb.
  - right. split; [|by eexists]. intros Hr. apply Hb.
    rewrite !elem_of_cons, elem_of_nil. lia.
  - left. split; [|done]. rewrite !elem_of_cons, elem_of_nil in Hb. lia.
Qed.

Lemma check_bases_outcome (baseNums : list Z) :
  (for_each baseNums (λ num _, __errorCheck_baseNum num) () = Ok () ∧
   ∀ b, b ∈ baseNums → -3 ≤ b ≤ 3) ∨
  (raises_ValueError (for_each baseNums (λ num _, __errorCheck_baseNum num) ()) ∧
   ∃ b, b ∈ baseNums ∧ ¬ -3 ≤ b ≤ 3).
Proof.
  induction baseNums as [|b l IH]; cbn [for_each].
  - left. split; [done|]. intros b Hb. by apply elem_of_nil in Hb.
  - destruct (errorCheck_baseNum_outcome b) as [[Hr ->]|[Hr [msg ->]]]; simpl.
    + destruct IH as [[-> Hall]|[Hraise (b' & Hin & Hout)]].
      * left. split; [done|]. intros b' [->|?]%elem_of_cons; eauto.
      * right. split; [done|]. exists b'. split; [apply elem_of_cons; by right|done].
    + right. split; [by eexists|]. exists b. split; [apply elem_of_cons; by left|done].
Qed.

Lemma sort_bases_spec (baseNums : list Z) :
  ∃ exclude_bases,
    sort_bases baseNums =
      (exclude_bases, filter (λ i, 0 < i) baseNums,
       Z.abs <$> filter (λ i, ¬ 0 < i) baseNums).
Proof.
  unfold sort_bases.
  cut (∀ ex req opt, ∃ ex',
         foldl sort_base (ex, req, opt) baseNums =
         (ex', req ++ filter (λ i, 0 < i) baseNums,
          opt ++ (Z.abs <$> filter (λ i, ¬ 0 < i) baseNums))).
  { intros Hgen. destruct (Hgen [1; 2; 3] [] []) as [ex' ->]. by exists ex'. }
  induction baseNums as [|i l IH]; intros ex req opt; cbn [foldl].
  - exists ex. by rewrite !app_nil_r.
  - unfold sort_base at 2. destruct (Z.gtb_spec i 0) as [Hi|Hi].
    + edestruct IH as [ex' ->]. exists ex'.
      rewrite filter_cons_True by lia. rewrite filter_cons_False by lia.
      by rewrite <- app_assoc.
    + edestruct IH as [ex' ->]. exists ex'.
      rewrite filter_cons_False by lia. rewrite filter_cons_True by lia.
      rewrite fmap_cons. by rewrite <- app_assoc.
Qed.

Lemma required_nonempty (baseNums : list Z) :
  (∃ b, b ∈ baseNums ∧ 0 < b) → is_nil (filter (λ i, 0 < i) baseNums) = false.
Proof.
  intros (b & Hin & Hb).
  assert (b ∈ filter (λ i, 0 < i) baseNums) as Hf by (by apply list_elem_of_filter).
  destruct (filter (λ i, 0 < i) baseNums); [by apply elem_of_nil in Hf | done].
Qed.

Lemma zero_optional (baseNums : list Z) :
  0 ∈ Z.abs <$> filter (λ i, ¬ 0 < i) baseNums ↔ 0 ∈ baseNums.
Proof.
  rewrite list_elem_of_fmap. split.
  - intros (i & Hi & Hin). apply list_elem_of_filter in Hin as [_ Hin].
    by replace 0 with i by lia.
  - intros Hin. exists 0. split; [done|]. apply list_elem_of_filter. split; [lia|done].
Qed.

(** C7. Whatever the index, an input list holding the literal 0 together with
    a positive base number makes [runnerOnBaseEvents] raise a [ValueError]:
    no result set is returned. *)
Theorem runnerOnBaseEvents_zero_with_required (es : EventSearch.obj) (baseNums : list Z) :
  0 ∈ baseNums →
  (∃ b, b ∈ baseNums ∧ 0 < b) →
  raises_ValueError (runnerOnBaseEvents es baseNums).
Proof.
  intros H0 Hpos. unfold runnerOnBaseEvents.
  destruct (check_bases_outcome baseNums) as [[-> _]|[[msg ->] _]]; simpl; [|by eexists].
  case_match; [by eexists|].
  rewrite bool_decide_eq_false_2.
  2:{ intros ->. destruct Hpos as (b & Hb%list_elem_of_singleton & ?). lia. }
  destruct (sort_bases_spec baseNums) as [ex ->].
  rewrite (required_nonempty _ Hpos). simpl.
  rewrite bool_decide_eq_true_2 by (by apply zero_optional).
  by eexists.
Qed.

Lemma runnerOnBaseEvents_zero_with_required_witness :
  raises_ValueError (runnerOnBaseEvents blank_index [0; 1]).
Proof.
  apply runnerOnBaseEvents_zero_with_required.
  - apply elem_of_cons. left. reflexivity.
  - exists 1. split; [|lia]. apply elem_of_cons. right. apply elem_of_cons. left. reflexivity.
Defined.

(** C1. With a positive (required) base in a list that passes validation and
    holds no 0, [runnerOnBaseEvents] does not reach the intersection: the
    call [self.eventFinal()] that seeds it raises [AttributeError]. *)
Theorem runnerOnBaseEvents_required_raises (es : EventSearch.obj) (baseNums : list Z) :
  (∀ b, b ∈ baseNums → -3 ≤ b ≤ 3) →
  (length baseNums ≤ 3)%nat →
  0 ∉ baseNums →
  (∃ b, b ∈ baseNums ∧ 0 < b) →
  runnerOnBaseEvents es baseNums = Raise (AttributeError "eventFinal").
Proof.
  intros Hrange Hlen H0 Hpos. unfold runnerOnBaseEvents.
  destruct (check_bases_outcome baseNums) as [[-> _]|[_ (b & Hin & Hout)]];
    [|by destruct Hout; apply Hrange]. simpl.
  destruct (Nat.ltb_spec 3 (length baseNums)); [lia|].
  rewrite bool_decide_eq_false_2 by (intros ->; apply H0, list_elem_of_singleton; done).
  destruct (sort_bases_spec baseNums) as [ex ->].
  rewrite (required_nonempty _ Hpos). simpl.
  rewrite bool_decide_eq_false_2 by (by rewrite zero_optional).
  reflexivity.
Qed.

Lemma runnerOnBaseEvents_required_raises_witness :
  runnerOnBaseEvents blank_index [1; -3]
  = Raise (AttributeError "eventFinal").
Proof.
  apply runnerOnBaseEvents_required_raises.
  - intros b Hb. apply elem_of_cons in Hb as [->|Hb]; [lia|].
    apply list_elem_of_singleton in Hb as ->. lia.
  - simpl. lia.
  - intros Hb. apply elem_of_cons in Hb as [Hb|Hb]; [discriminate Hb|].
    apply list_elem_of_singleton in Hb. discriminate Hb.
  - exists 1. split; [|lia]. apply elem_of_cons. left. reflexivity.
Defined.

(** C2. On the input list [[0]], [runnerOnBaseEvents] subscripts the runner
    dict, whose keys are the ints 0 to 3, with the str ['None'], and raises
    [KeyError] instead of returning the no-runner bucket. *)
Theorem runnerOnBaseEvents_zero_alone (es : EventSearch.obj) :
  runnerOnBaseEvents es [0] = Raise (KeyError (KStr "None")).
Proof. reflexivity. Qed.

(** C3. For every [n], [pitcherStaminaEvents] called with [-n] raises
    [TypeError]: it hands [listInputHandling] the str ['Pitcher Stamina']
    where the stamina dict belongs, and the membership test of an int in a
    str raises. *)
Theorem pitcherStaminaEvents_raises (es : EventSearch.obj) (n : Z) :
  pitcherStaminaEvents es (One (- n)) =
  Raise (TypeError "'in <string>' requires string as left operand, not int").
Proof. reflexivity. Qed.

(** C4. [awayScoreEvents] answers from the home-score dict: it coincides
    with [homeScoreEvents] on every index and every argument.  In the game
    [Sample.away_leads], event 0 has away score 1 and sits in the away-score
    bucket of 1, yet [awayScoreEvents(1)] returns the empty set. *)
Theorem awayScoreEvents_reads_home_scores :
  (∀ es awayScore, awayScoreEvents es awayScore = homeScoreEvents es awayScore) ∧
  (__init__ (with_roster_names Sample.away_leads) ≫= λ es,
     Ok (int_dict es _away_score_dict !! 1)) = Ok (Some {[0%nat]}) ∧
  (__init__ (with_roster_names Sample.away_leads) ≫= λ es,
     awayScoreEvents es (One 1)) = Ok ∅.
Proof. split; [done|]. split; vm_compute; reflexivity. Qed.

(** C5. A pitch type outside its canonical domain is tolerated, the build
    succeeds; a swing type, a contact type, an input direction or an
    at-bat outcome outside its domain raises a [KeyError] that escapes
    [__init__]. *)
Theorem unknown_values_escape_the_build :
  succeeds (__init__ (with_roster_names Sample.unknown_pitch_type)) = true ∧
  __init__ (with_roster_names Sample.unknown_swing_type) = Raise (KeyError (KStr "Check")) ∧
  __init__ (with_roster_names Sample.unknown_contact_type) = Raise (KeyError (KStr "Tipped")) ∧
  __init__ (with_roster_names Sample.unknown_input_direction) = Raise (KeyError (KStr "Diagonal")) ∧
  __init__ (with_roster_names Sample.unknown_result) = Raise (KeyError (KStr "Balk")).
Proof. repeat split; vm_compute; reflexivity. Qed.

(** C6, counterexample. 9 is no ball count (the keys are 0 to 3), and
    [ballEvents(9)] returns the empty set instead of raising. *)
Lemma out_of_domain_value_is_skipped :
  (__init__ (with_roster_names Sample.two_events) ≫= λ es, ballEvents es (One 9)) = Ok ∅ ∧
  ¬ raises_ValueError
      (__init__ (with_roster_names Sample.two_events) ≫= λ es, ballEvents es (One 9)).
Proof.
  assert (E : (__init__ (with_roster_names Sample.two_events) ≫= λ es, ballEvents es (One 9)) = Ok ∅)
    by (vm_compute; reflexivity).
  split; [exact E|]. rewrite E. intros [msg Hmsg]. discriminate Hmsg.
Qed.

(** ** The keys of the int-keyed dicts *)

Lemma add_int_dom a' k n s s' a :
  add_int a' k n s = Ok s' → dom (int_dict s' a) = dom (int_dict s a).
Proof.
  unfold add_int. intros H.
  destruct (int_dict s a' !! k) as [t|] eqn:Hk; [|discriminate].
  injection H as <-. simpl.
  destruct (decide (a' = a)) as [->|Hne].
  - rewrite fn_lookup_insert. apply dom_insert_lookup_L. eauto.
  - by rewrite fn_lookup_insert_ne.
Qed.

Lemma add_band_dom a' k n s s' a :
  a ≠ a' → add_band a' k n s = Ok s' → dom (int_dict s' a) = dom (int_dict s a).
Proof.
  unfold add_band. intros Hne H. rewrite (add_int_dom _ _ _ _ _ a H). simpl.
  by rewrite fn_lookup_insert_ne.
Qed.

#[export] Hint Resolve add_int_dom add_band_dom : keeps.

Lemma index_runners_dom ce n s s' a :
  index_runners ce n s = Ok s' → dom (int_dict s' a) = dom (int_dict s a).
Proof.
  unfold index_runners. intros H. walk H. case_match.
  - eauto with keeps.
  - change (range 1 4) with [1; 2; 3] in H. cbn [for_each] in H. walk H. simplify_eq.
    repeat match goal with
    | Hb : _ ≫= _ = Ok _ |- _ => apply bind_Ok_inv in Hb as (? & ? & ?)
    end.
    repeat match goal with
    | Hw : when ?c _ ?t = Ok ?t' |- _ =>
        assert (dom (int_dict t' a) = dom (int_dict t a)) as ->
          by (unfold when in Hw; destruct c; [eauto with keeps | by simplify_eq]);
        clear Hw
    end.
    done.
Qed.

#[export] Hint Resolve index_runners_dom : keeps.

Section fixed.
Context (a : IntAxis) (Hfixed : fixed_axis a).

Let Hband1 : a ≠ _ball_position_strikezone := proj1 Hfixed.
Let Hband2 : a ≠ _x_ball_contact_pos := proj2 Hfixed.

Lemma index_first_fielder_dom f n s s' :
  index_first_fielder f n s = Ok s' → dom (int_dict s' a) = dom (int_dict s a).
Proof. unfold index_first_fielder. intros H. walk H. keep (λ s, dom (int_dict s a)). done. Qed.

Hint Resolve index_first_fielder_dom : keeps.

Lemma index_contact_dom c n s s' :
  index_contact c n s = Ok s' → dom (int_dict s' a) = dom (int_dict s a).
Proof.
  unfold index_contact. intros H. walk H.
  case_match; keep (λ s, dom (int_dict s a)); done.
Qed.

Hint Resolve index_contact_dom : keeps.

Lemma index_pitch_dom ce p n s s' :
  index_pitch ce p n s = Ok s' → dom (int_dict s' a) = dom (int_dict s a).
Proof.
  unfold index_pitch. intros H. walk H.
  case_match; keep (λ s, dom (int_dict s a)); done.
Qed.

Hint Resolve index_pitch_dom : keeps.

Lemma index_mandatory_dom ce n s s' :
  index_mandatory ce n s = Ok s' → dom (int_dict s' a) = dom (int_dict s a).
Proof. unfold index_mandatory. intros H. walk H. keep (λ s, dom (int_dict s a)). done. Qed.

Hint Resolve index_mandatory_dom : keeps.

Lemma index_event_dom n s s' :
  index_event n s = Ok s' → dom (int_dict s' a) = dom (int_dict s a).
Proof.
  unfold index_event. intros H. walk H.
  case_match; keep (λ s, dom (int_dict s a)); done.
Qed.

End fixed.

Lemma built_domains (rio : RioStat.obj) (es : EventSearch.obj) :
  __init__ rio = Ok es →
  ∃ score0 score1,
    RioStat.score rio 0 = Ok score0 ∧ RioStat.score rio 1 = Ok score1 ∧
    ∀ a, fixed_axis a →
      ∀ k, is_Some (int_dict es a !! k) ↔
           k ∈ int_domain (RioStat.inningsPlayed rio) score0 score1 a.
Proof.
  unfold __init__. intros H.
  apply bind_Ok_inv in H as (s0 & Hs0 & H).
  unfold empty_index in Hs0.
  apply bind_Ok_inv in Hs0 as (score0 & Hscore0 & Hs0).
  apply bind_Ok_inv in Hs0 as (score1 & Hscore1 & Hs0).
  injection Hs0 as <-.
  exists score0, score1. split; [done|]. split; [done|].
  intros a Ha k. rewrite <- elem_of_dom.
  pose (I := λ (_ : nat) (s : EventSearch.obj),
     dom (int_dict s a) =
     dom (dict_from_keys (int_domain (RioStat.inningsPlayed rio) score0 score1 a))).
  assert (HI : I (0 + length (RioStat.events rio))%nat es).
  { eapply (for_each_seq_invariant index_event I); [| |exact H].
    - done.
    - intros n t t' _ Ht Hstep. unfold I.
      by rewrite (index_event_dom a Ha _ _ _ Hstep). }
  unfold I in HI. rewrite HI, elem_of_dom. split.
  - intros [t Ht]. by apply dict_from_keys_Some in Ht as [_ ?].
  - intros Hin. rewrite (dict_from_keys_elem _ _ Hin). eauto.
Qed.

Lemma built_keys_are_range (rio : RioStat.obj) (es : EventSearch.obj) (a : IntAxis) :
  __init__ rio = Ok es → fixed_axis a →
  ∃ lo hi, keys_are_range (int_dict es a) lo hi.
Proof.
  intros H Ha. destruct (built_domains rio es H) as (score0 & score1 & _ & _ & Hdom).
  specialize (Hdom a Ha). unfold keys_are_range.
  destruct Ha as [Ha1 Ha2].
  destruct a; try done; simpl in Hdom; unfold range in Hdom;
    eexists _, _; intros k; rewrite Hdom, elem_of_seqZ;
    (split; [intros Hk; exact Hk | intros Hk; lia]).
Qed.

(** ** List inputs *)

Lemma foldr_max_spec (k : Z) (ks : list Z) :
  foldr Z.max k ks ∈ k :: ks ∧ ∀ x, x ∈ k :: ks → x ≤ foldr Z.max k ks.
Proof.
  induction ks as [|k' ks [IHin IHmax]]; simpl.
  - split; [apply elem_of_cons; by left|].
    intros x Hx. apply list_elem_of_singleton in Hx as ->. lia.
  - split.
    + destruct (Z.max_spec k' (foldr Z.max k ks)) as [[_ ->]|[_ ->]].
      * apply elem_of_cons in IHin as [Hk|Hk]; rewrite !elem_of_cons; [by left|by right; right].
      * rewrite !elem_of_cons. right. by left.
    + intros x. rewrite !elem_of_cons. intros [->|[->|Hx]].
      * assert (k ≤ foldr Z.max k ks) by (apply IHmax, elem_of_cons; by left). lia.
      * lia.
      * assert (x ≤ foldr Z.max k ks) by (apply IHmax, elem_of_cons; by right). lia.
Qed.

Lemma dict_max_spec {V} (d : gmap Z V) (k : Z) :
  is_Some (d !! k) →
  ∃ top, dict_max d = Ok top ∧ is_Some (d !! top) ∧ ∀ j, is_Some (d !! j) → j ≤ top.
Proof.
  intros Hk. unfold dict_max. apply elem_of_dom, elem_of_elements in Hk.
  destruct (elements (dom d)) as [|k0 ks] eqn:E; [by apply elem_of_nil in Hk|].
  destruct (foldr_max_spec k0 ks) as [Hin Hmax].
  exists (foldr Z.max k0 ks). split; [done|]. split.
  - apply elem_of_dom, elem_of_elements. by rewrite E.
  - intros j Hj. apply Hmax. rewrite <- E. by apply elem_of_elements, elem_of_dom.
Qed.

Lemma union_buckets_total (d : gmap Z (gset nat)) (js : list Z) (result : gset nat) :
  (∀ j, j ∈ js → is_Some (d !! j)) →
  is_Ok (for_each js (λ j result, s ← getitem_int d (KInt j); Ok (result ∪ s)) result).
Proof.
  revert result. induction js as [|j js IH]; intros result Hjs; cbn [for_each].
  - by eexists.
  - destruct (Hjs j) as [s Hs]; [apply elem_of_cons; by left|].
    simpl. rewrite Hs. simpl. apply IH. intros j' Hj'. apply Hjs, elem_of_cons. by right.
Qed.

Lemma listInputHandling_body_total (d : gmap Z (gset nat)) (lo hi i : Z) (result : gset nat) :
  keys_are_range d lo hi →
  is_Ok (listInputHandling_body (CvDict d) false i result).
Proof.
  intros Hd. unfold listInputHandling_body.
  case_bool_decide as Hi; [by eexists|].
  assert (is_Some (d !! Z.abs i)) as Hsome by (by destruct (d !! Z.abs i); eauto).
  destruct (Z.geb_spec i 0) as [Hpos|Hneg].
  - rewrite Z.abs_eq in Hsome by done. destruct Hsome as [s Hs].
    simpl. rewrite Hs. by eexists.
  - destruct (dict_max_spec d _ Hsome) as (top & -> & Htop & Hmax). simpl.
    apply union_buckets_total. intros j Hj. unfold range in Hj.
    apply elem_of_seqZ in Hj. apply Hd. apply Hd in Hsome, Htop. lia.
Qed.

Lemma listInputHandling_total (d : gmap Z (gset nat)) (lo hi : Z) (inputList : list Z) :
  keys_are_range d lo hi →
  is_Ok (listInputHandling inputList (CvDict d) false).
Proof.
  intros Hd. unfold listInputHandling. generalize (∅ : gset nat).
  induction inputList as [|i l IH]; intros result; cbn [for_each].
  - by eexists.
  - destruct (listInputHandling_body_total d lo hi i result Hd) as [r ->]. simpl. apply IH.
Qed.

Lemma listInputHandling_skip (d : gmap Z (gset nat)) (i : Z) (inputList : list Z) :
  d !! Z.abs i = None →
  listInputHandling (i :: inputList) (CvDict d) false =
  listInputHandling inputList (CvDict d) false.
Proof.
  intros Hi. unfold listInputHandling. cbn [for_each].
  assert (listInputHandling_body (CvDict d) false i ∅ = Ok ∅) as ->; [|done].
  unfold listInputHandling_body. by rewrite bool_decide_eq_true_2 by done.
Qed.

Lemma halfInningEvents_invalid (es : EventSearch.obj) (halfInningNum : Z) :
  halfInningNum ≠ 0 → halfInningNum ≠ 1 →
  halfInningEvents es halfInningNum =
  Raise (ValueError ("Invalid Half Inning num " +:+ pretty halfInningNum +:+
           ". Function only accepts base numbers of 0 or 1.")).
Proof.
  intros H0 H1. unfold halfInningEvents, __errorCheck_halfInningNum.
  rewrite bool_decide_eq_true_2; [done|].
  rewrite !elem_of_cons, elem_of_nil. naive_solver.
Qed.

(** C6, amended. On a built index: [halfInningEvents] returns the bucket for
    0 and 1 and raises a [ValueError] naming the value for any other
    argument; [runnerOnBaseEvents] raises a [ValueError] as soon as one base
    number lies outside -3..3; a list-input query over an axis with a fixed
    key range never raises, and an element whose absolute value is no key
    of the axis is skipped. *)
Theorem query_validation (rio : RioStat.obj) (es : EventSearch.obj) :
  __init__ rio = Ok es →
  (∀ h, h = 0 ∨ h = 1 →
        ∃ bucket, int_dict es _half_inning_dict !! h = Some bucket ∧
                  halfInningEvents es h = Ok bucket) ∧
  (∀ h, h ≠ 0 → h ≠ 1 →
        halfInningEvents es h =
        Raise (ValueError ("Invalid Half Inning num " +:+ pretty h +:+
                 ". Function only accepts base numbers of 0 or 1."))) ∧
  (∀ baseNums b, b ∈ baseNums → ¬ -3 ≤ b ≤ 3 →
        raises_ValueError (runnerOnBaseEvents es baseNums)) ∧
  (∀ a inputList, fixed_axis a →
        is_Ok (listInputHandling inputList (CvDict (int_dict es a)) false)) ∧
  (∀ a i inputList, int_dict es a !! Z.abs i = None →
        listInputHandling (i :: inputList) (CvDict (int_dict es a)) false =
        listInputHandling inputList (CvDict (int_dict es a)) false).
Proof.
  intros H. split; [|split; [|split; [|split]]].
  - intros h Hh.
    destruct (built_domains rio es H) as (score0 & score1 & _ & _ & Hdom).
    assert (is_Some (int_dict es _half_inning_dict !! h)) as [bucket Hb].
    { apply Hdom; [split; discriminate|]. simpl. unfold range.
      apply elem_of_seqZ. lia. }
    exists bucket. split; [done|].
    unfold halfInningEvents, __errorCheck_halfInningNum.
    rewrite bool_decide_eq_false_2.
    + simpl. by rewrite Hb.
    + intros Hn. apply Hn. rewrite !elem_of_cons. naive_solver.
  - intros h. apply halfInningEvents_invalid.
  - intros baseNums b Hin Hout. unfold runnerOnBaseEvents.
    destruct (check_bases_outcome baseNums) as [[_ Hall]|[[msg ->] _]].
    + destruct Hout. by apply Hall.
    + by eexists.
  - intros a inputList Ha.
    destruct (built_keys_are_range rio es a H Ha) as (lo & hi & Hr).
    by apply (listInputHandling_total _ lo hi).
  - intros a i inputList. apply listInputHandling_skip.
Qed.

Lemma query_validation_witness :
  ∃ es, __init__ (with_roster_names Sample.two_events) = Ok es ∧
    halfInningEvents es 1 = Ok {[1%nat]} ∧
    raises_ValueError (halfInningEvents es 2) ∧
    raises_ValueError (runnerOnBaseEvents es [4]) ∧
    is_Ok (listInputHandling [9; -1] (CvDict (int_dict es _balls_dict)) false).
Proof.
  destruct (succeeds_Ok (__init__ (with_roster_names Sample.two_events))) as [es E].
  { vm_compute. reflexivity. }
  exists es. split; [exact E|].
  destruct (query_validation (with_roster_names Sample.two_events) es E)
    as (Hhalf & Hbad & Hbase & Htotal & _).
  split; [|split; [|split]].
  - destruct (Hhalf 1) as (bucket & Hb & ->); [right; reflexivity|].
    f_equal.
    assert (Hq : (__init__ (with_roster_names Sample.two_events) ≫= λ es,
                    Ok (int_dict es _half_inning_dict !! 1)) = Ok (Some {[1%nat]}))
      by (vm_compute; reflexivity).
    rewrite E in Hq. simpl in Hq. congruence.
  - rewrite (Hbad 2) by lia. by eexists.
  - apply (Hbase [4] 4); [apply list_elem_of_singleton; reflexivity | lia].
  - apply Htotal. split; discriminate.
Defined.

(** ** [StatObj] as the [rioStat] of the index *)

(** [StatObj.characterName] never returns: whatever passes its checks ends
    in the call of [Lookup.get_character] on the class. *)
Lemma StatObj_characterName_raises (st : StatObj.statJson) (teamNum rosterNum : Z) :
  succeeds (StatObj.characterName st teamNum rosterNum) = false.
Proof.
  unfold StatObj.characterName.
  destruct (ErrorChecker.check_team_num teamNum); [|done]. simpl.
  destruct (ErrorChecker.check_roster_num rosterNum); [|done]. simpl.
  destruct (StatObj.getTeamString st teamNum _); [|done]. simpl.
  by destruct (StatObj.roster_CharID st _).
Qed.

(** So an index over a [StatObj] is only ever built for a game without
    events: the first event already fails to name its batter. *)
Lemma StatObj_build_has_no_events (st : StatObj.statJson) (es : EventSearch.obj) :
  __init__ (StatObj.as_rioStat st) = Ok es → StatObj.Events st = [].
Proof.
  unfold __init__. intros H.
  apply bind_Ok_inv in H as (s0 & Hs0 & H).
  apply empty_index_rioStat in Hs0. simpl in H.
  unfold StatObj.events in H.
  destruct (StatObj.Events st) as [|e evs] eqn:Hev; [done|exfalso].
  cbn [length seq for_each] in H.
  apply bind_Ok_inv in H as (s1 & Hs1 & _).
  unfold index_event in Hs1. rewrite Hs0 in Hs1.
  apply bind_Ok_inv in Hs1 as (ce & Hce & Hs1).
  apply EventObj_init_Ok in Hce as (e' & _ & ->).
  apply bind_Ok_inv in Hs1 as (s2 & Hs2 & _).
  unfold index_mandatory in Hs2.
  apply bind_Ok_inv in Hs2 as (b & Hb & _).
  unfold EventObj.batter in Hb. simpl in Hb.
  pose proof (StatObj_characterName_raises st
                (EventObj.batting_team (view (StatObj.as_rioStat st) e'))
                (Batter_Roster_Loc e')) as Hr.
  unfold view in Hr. by rewrite Hb in Hr.
Qed.

(** ** The descending branch of [listInputHandling]

    With [to_zero], a negative element [-n] collects the buckets of
    [range(0, n)]: bucket [n] itself is left out.  In [Sample.two_events]
    both events have pitcher stamina 10, and the stamina dict queried with
    [-10] gives the empty set. *)
Lemma to_zero_leaves_threshold_out :
  (__init__ (with_roster_names Sample.two_events) ≫= λ es,
     Ok (int_dict es _pitcher_stamina_dict !! 10)) = Ok (Some {[0%nat; 1%nat]}) ∧
  (__init__ (with_roster_names Sample.two_events) ≫= λ es,
     listInputHandling [-10] (CvDict (int_dict es _pitcher_stamina_dict)) true) = Ok ∅.
Proof. split; vm_compute; reflexivity. Qed.
